(** * strong-unwrapped: the per-exercise aggregation of [analyze.py]

    A shallow embedding of [src/analyze.py]: the aggregator
    [analyze_exercises], the data the report panels are built from, and
    the top-level exception handling of the script.

    Modelling conventions.
    - A pandas data frame is the list of its rows, in row order; a column
      is the list of that field over the rows.
    - The ['Date'] column holds what [pd.to_datetime] produced: a
      timestamp with its calendar fields and the time of day.
    - ['Reps'] is an [int64] column: its values are integers ([Z]) and
      its sum is taken with the 64-bit wrap-around of numpy written out
      ([wrap_int64]).  Counts ([len], [nunique]) are Python integers.
    - ['Weight'] is a [float64] column (a weight column holding integers
      only would be read as [int64] and wrap like ['Reps']; that case is
      outside this model).  Weights, volumes and means are modelled by
      exact rationals ([Q]) and statements about them use [==]: they
      describe the code up to the rounding of binary floating point,
      which is outside this model.  Only the statements of C1 (the total
      volume) and C8 (the mean) rest on exact sums; nothing else below
      compares or bounds a floating-point sum.  Missing values are not
      modelled.
    - A frame records which columns it has; selecting a column that is
      not there raises [KeyError].
    - Python dictionaries that the code iterates ([exercise_mappings]) are
      association lists in insertion order; the dictionaries it builds and
      looks up ([all_stats], [all_dfs]) are [gmap]s.
    - Exceptions are values of [pyexn]; code that can raise returns
      [pyexn + A]. *)

From Stdlib Require Import ZArith QArith Qminmax Lia Ascii.
From stdpp Require Import base option list sorting strings gmap pretty.

#[local] Open Scope Z_scope.

(** ** Exceptions *)

Inductive exn_class :=
  | FileNotFoundError
  | PermissionError
  | ParserError
  | KeyError
  | IndexError
  | ValueError
  | ZeroDivisionError
  | RuntimeError.

Record pyexn := PyExn { exn_cls : exn_class; exn_msg : string }.

#[global] Instance exn_class_eq_dec : EqDecision exn_class.
Proof. solve_decision. Defined.

(** [str(e)] *)
Definition str (e : pyexn) : string := exn_msg e.

Definition raise {A} (c : exn_class) (m : string) : pyexn + A := inl (PyExn c m).

Definition bind {A B} (x : pyexn + A) (k : A → pyexn + B) : pyexn + B :=
  match x with
  | inl e => inl e
  | inr a => k a
  end.

Notation "x <~ c ;; k" := (bind c (λ x, k))
  (at level 100, c at next level, right associativity, only parsing).

(** ** Timestamps and rows *)

Record Timestamp := {
  ts_year : Z;
  ts_month : Z;
  ts_day : Z;
  ts_nanos : Z      (* time of day *)
}.

(** [.dt.year] and [.dt.date] *)
Definition dt_year (t : Timestamp) : Z := ts_year t.
Definition dt_date (t : Timestamp) : Z * Z * Z := (ts_year t, ts_month t, ts_day t).

(** Chronological order: year, then month, then day, then time of day. *)
Definition ts_compare (a b : Timestamp) : comparison :=
  match ts_year a ?= ts_year b with
  | Eq =>
    match ts_month a ?= ts_month b with
    | Eq =>
      match ts_day a ?= ts_day b with
      | Eq => ts_nanos a ?= ts_nanos b
      | c => c
      end
    | c => c
    end
  | c => c
  end.

Definition ts_le (a b : Timestamp) : Prop := ts_compare a b ≠ Gt.

Definition date_le (a b : Z * Z * Z) : Prop :=
  let '(ya, ma, da) := a in
  let '(yb, mb, db) := b in
  ya < yb ∨ (ya = yb ∧ (ma < mb ∨ (ma = mb ∧ da ≤ db))).

Record Row := {
  Date : Timestamp;
  Exercise_Name : string;
  Weight : Q;
  Reps : Z
}.

(** A row of a per-group frame: the original columns and ['Volume']. *)
Record SetRow := {
  row :> Row;
  Volume : Q
}.

Abbreviation DataFrame := (list Row).

(** A frame as [pd.read_csv] returns it: the labels of its columns and its
    rows.  A row holds a value for each of the four columns the script
    reads; the value for a column that the frame lacks is never read,
    because selecting that column raises first. *)
Record Frame := {
  frame_columns : list string;
  frame_rows : list Row
}.

Definition strong_columns : list string :=
  ["Date"; "Exercise Name"; "Weight"; "Reps"]%string.

(** The frame with these four columns and the given rows. *)
Definition full_frame (df : DataFrame) : Frame :=
  {| frame_columns := strong_columns; frame_rows := df |}.

(** [df[name]], as far as it can fail: selecting a column the frame does
    not have raises [KeyError(name)], whose [str] is the quoted name. *)
Definition require_column (df : Frame) (name : string) : pyexn + unit :=
  if decide (name ∈ frame_columns df) then inr ()
  else raise KeyError ("'" +:+ name +:+ "'").

Record ExerciseStats := {
  total_volume : Q;
  total_sets : Z;
  total_reps : Z;
  avg_weight : Q;
  max_weight : Q;
  training_days : Z
}.

(** ** Column operations *)

(** [len(df)] *)
Definition len {A} (l : list A) : Z := Z.of_nat (length l).

(** The value of a signed 64-bit integer with the bits of [z]. *)
Definition wrap_int64 (z : Z) : Z := (z + 2 ^ 63) mod 2 ^ 64 - 2 ^ 63.

(** [Series.sum()] on an [int64] column: 64-bit additions, which wrap
    around silently. *)
Definition sum_Z (l : list Z) : Z := foldr (λ x acc, wrap_int64 (x + acc)) 0 l.

(** [Series.sum()] on a [float64] column, in exact arithmetic: the code's
    value is this sum up to the rounding of each addition. *)
Definition sum_Q (l : list Q) : Q := foldr Qplus (0 # 1)%Q l.

(** [Series.mean()], in exact arithmetic like [sum_Q]; pandas gives NaN on
    an empty column, which the aggregator never asks for (the value here
    is then [0]). *)
Definition mean (l : list Q) : Q := (sum_Q l / inject_Z (len l))%Q.

(** [Series.max()]; the same remark applies to the empty column. *)
Definition max_Q (l : list Q) : Q :=
  match l with
  | [] => (0 # 1)%Q
  | x :: l' => foldl Qmax x l'
  end.

(** [Series.nunique()] *)
Definition nunique `{EqDecision A} (l : list A) : Z := len (remove_dups l).

#[global] Instance ts_le_dec a b : Decision (ts_le a b).
Proof. unfold ts_le. solve_decision. Defined.

Definition row_date_le (a b : SetRow) : Prop := ts_le (Date a) (Date b).

#[global] Instance row_date_le_dec a b : Decision (row_date_le a b).
Proof. unfold row_date_le. apply _. Defined.

(** [df.sort_values('Date')]: some sort on the timestamp.  The order pandas
    leaves between rows with equal timestamps is not specified for its
    default algorithm, and nothing below depends on it. *)
Definition sort_values_Date (df : list SetRow) : list SetRow :=
  merge_sort row_date_le df.

(** [df[df['Date'].dt.year == year]] *)
Definition filter_year (year : Z) (df : DataFrame) : DataFrame :=
  filter (λ r, dt_year (Date r) = year) df.

(** [df[df['Exercise Name'].isin(alt_names)]] *)
Definition filter_isin (alt_names : list string) (df : DataFrame) : DataFrame :=
  filter (λ r, Exercise_Name r ∈ alt_names) df.

(** [exercise_df['Volume'] = exercise_df['Weight'] * exercise_df['Reps']] *)
Definition with_volume (r : Row) : SetRow :=
  {| row := r; Volume := (Weight r * inject_Z (Reps r))%Q |}.

(** ** The aggregator (lines 173-204) *)

Definition compute_stats (exercise_df : list SetRow) : ExerciseStats :=
  let unique_days := nunique ((λ r : SetRow, dt_date (Date r)) <$> exercise_df) in
  {| total_volume := sum_Q (Volume <$> exercise_df);
     total_sets := len exercise_df;
     total_reps := sum_Z ((λ r : SetRow, Reps r) <$> exercise_df);
     avg_weight := mean ((λ r : SetRow, Weight r) <$> exercise_df);
     max_weight := max_Q ((λ r : SetRow, Weight r) <$> exercise_df);
     training_days := unique_days |}.

Definition Outputs : Type := gmap string ExerciseStats * gmap string (list SetRow).

(** One iteration of the loop over [exercise_mappings.items()] (lines
    182-202).  Line 182 selects ['Exercise Name']; line 187 selects
    ['Weight'], then ['Reps'], and is reached only for a non-empty
    selection. *)
Definition loop_body (df : Frame) (acc : Outputs) (item : string * list string)
    : pyexn + Outputs :=
  let '(all_stats, all_dfs) := acc in
  let '(main_exercise, alt_names) := item in
  _name <~ require_column df "Exercise Name" ;;
  let exercise_df := filter_isin alt_names (frame_rows df) in
  if decide (len exercise_df = 0) then inr acc
  else
    _weight <~ require_column df "Weight" ;;
    _reps <~ require_column df "Reps" ;;
    let exercise_df := with_volume <$> exercise_df in
    let exercise_df := sort_values_Date exercise_df in
    let stats := compute_stats exercise_df in
    inr (<[main_exercise := stats]> all_stats, <[main_exercise := exercise_df]> all_dfs).

(** The [for] loop of line 181: the iterations in order, stopping at the
    first exception. *)
Fixpoint for_items (df : Frame) (items : list (string * list string)) (acc : Outputs)
    : pyexn + Outputs :=
  match items with
  | [] => inr acc
  | item :: items' =>
    acc' <~ loop_body df acc item ;;
    for_items df items' acc'
  end.

(** [data_strong_csv] is what [pd.read_csv('data/strong.csv')] yields, the
    dates of its ['Date'] column (if it has one) already parsed: the
    exception that reading or parsing raises, or the frame.  Line 175
    selects ['Date']. *)
Definition analyze_exercises (data_strong_csv : pyexn + Frame)
    (exercise_mappings : list (string * list string)) (year : Z) : pyexn + Outputs :=
  df <~ data_strong_csv ;;
  _date <~ require_column df "Date" ;;
  let df := {| frame_columns := frame_columns df;
               frame_rows := filter_year year (frame_rows df) |} in
  for_items df exercise_mappings (∅, ∅).

(** What one iteration stores when no column is missing. *)
Definition loop_body_full (df : DataFrame) (acc : Outputs) (item : string * list string)
    : Outputs :=
  let '(all_stats, all_dfs) := acc in
  let '(main_exercise, alt_names) := item in
  let exercise_df := filter_isin alt_names df in
  if decide (len exercise_df = 0) then acc
  else
    let exercise_df := with_volume <$> exercise_df in
    let exercise_df := sort_values_Date exercise_df in
    let stats := compute_stats exercise_df in
    (<[main_exercise := stats]> all_stats, <[main_exercise := exercise_df]> all_dfs).

(** The mappings of the script (lines 208-212). *)
Definition exercise_mappings : list (string * list string) :=
  [ ("Squat (Barbell)", ["Squat (Barbell)"]);
    ("Deadlift (Barbell)", ["Deadlift (Barbell)"; "Deadlift Old Data "]);
    ("Bench Press (Barbell)", ["Bench Press (Barbell)"; "Bench press Backup "]) ]%string.

Definition mk_row (y m d : Z) (name : string) (w : Q) (reps : Z) : Row :=
  {| Date := {| ts_year := y; ts_month := m; ts_day := d; ts_nanos := 0 |};
     Exercise_Name := name; Weight := w; Reps := reps |}.

Definition squat_example : DataFrame :=
  [ mk_row 2024 1 1 "Squat (Barbell)" (100 # 1) 5;
    mk_row 2024 1 1 "Squat (Barbell)" (105 # 1) 3;
    mk_row 2024 1 8 "Squat (Barbell)" (110 # 1) 5 ].

(** ** The report panels (lines 46-171)

    Each [create_*] function is modelled by the data it hands to
    matplotlib, and by the exceptions its own statements raise: the
    division of lines 67 and 100, and [ax.table] on an empty list of rows
    (line 80).  Colours and layout are left out, and so is the fitted
    trend line of the progression panel.  A table row records the value
    that each f-string of lines 69-77 formats, not the formatted text:
    the integer cells are shown as they are, the others rounded to one
    or to no decimal. *)

(** [s.replace(old, new)] for a non-empty [old]: left to right, without
    overlaps.  [skip] counts the characters of a match still to be
    dropped. *)
Fixpoint replace_from (old new : string) (skip : nat) (s : string) : string :=
  match s with
  | EmptyString => EmptyString
  | String c s' =>
    match skip with
    | S n => replace_from old new n s'
    | O =>
      if String.prefix old s
      then new +:+ replace_from old new (String.length old - 1) s'
      else String c (replace_from old new O s')
    end
  end.

Definition replace (old new s : string) : string := replace_from old new O s.

Definition short_name (ex : string) : string := replace " (Barbell)" EmptyString ex.

(** [a / b] on Python integers *)
Definition truediv (a b : Z) : pyexn + Q :=
  if decide (b = 0) then raise ZeroDivisionError "division by zero"
  else inr (inject_Z a / inject_Z b)%Q.

Record TableRow := {
  tr_name : string;
  tr_training_days : Z;
  tr_total_sets : Z;
  tr_sets_per_day : Q;
  tr_total_reps : Z;
  tr_total_volume : Q;
  tr_avg_weight : Q;
  tr_max_weight : Q
}.

(** The loop of lines 62-78. *)
Fixpoint table_rows (stats : gmap string ExerciseStats)
    (exercises : list string) : pyexn + list TableRow :=
  match exercises with
  | [] => inr []
  | ex :: exercises' =>
    match stats !! ex with
    | Some s =>
      let name := short_name ex in
      sets_per_day <~ truediv (total_sets s) (training_days s) ;;
      let row :=
        {| tr_name := name;
           tr_training_days := training_days s;
           tr_total_sets := total_sets s;
           tr_sets_per_day := sets_per_day;
           tr_total_reps := total_reps s;
           tr_total_volume := total_volume s;
           tr_avg_weight := avg_weight s;
           tr_max_weight := max_weight s |} in
      table_data <~ table_rows stats exercises' ;;
      inr (row :: table_data)
    | None => table_rows stats exercises'
    end
  end.

(** [ax.table(cellText=table_data, ...)] of line 80: matplotlib takes the
    number of columns from [cellText[0]], which raises [IndexError] on an
    empty list. *)
Definition ax_table (cellText : list TableRow) : pyexn + list TableRow :=
  match cellText with
  | [] => raise IndexError "list index out of range"
  | _ :: _ => inr cellText
  end.

Definition create_detailed_stats_table (stats : gmap string ExerciseStats)
    (exercises : list string) : pyexn + list TableRow :=
  table_data <~ table_rows stats exercises ;;
  ax_table table_data.

(** [[f(stats[ex]) for ex in exercises if ex in stats]] *)
Definition present_stats (stats : gmap string ExerciseStats) (exercises : list string)
    : list ExerciseStats :=
  omap (λ ex, stats !! ex) exercises.

(** [[short_name(ex) for ex in exercises if ex in stats]], the labels of a
    bar plot *)
Definition present_labels {V} (d : gmap string V) (exercises : list string) : list string :=
  short_name <$> filter (λ ex, is_Some (d !! ex)) exercises.

Fixpoint sets_per_session_values (l : list ExerciseStats) : pyexn + list Q :=
  match l with
  | [] => inr []
  | s :: l' =>
    v <~ truediv (total_sets s) (training_days s) ;;
    vs <~ sets_per_session_values l' ;;
    inr (v :: vs)
  end.

Definition create_sets_per_session_plot (stats : gmap string ExerciseStats)
    (exercises : list string) : pyexn + (list string * list Q) :=
  sets_per_session <~ sets_per_session_values (present_stats stats exercises) ;;
  let labels := present_labels stats exercises in
  inr (labels, sets_per_session).

Definition create_training_days_plot (stats : gmap string ExerciseStats)
    (exercises : list string) : list string * list Z :=
  let days := training_days <$> present_stats stats exercises in
  let labels := present_labels stats exercises in
  (labels, days).

Definition create_volume_plot (stats : gmap string ExerciseStats)
    (exercises : list string) : list string * list Q :=
  let volumes := total_volume <$> present_stats stats exercises in
  let labels := present_labels stats exercises in
  (labels, volumes).

(** The scatter data of each present group: its label and its
    ([Date], [Weight]) points in frame order. *)
Definition create_weight_progression_plot (dfs : gmap string (list SetRow))
    (exercises : list string) : list (string * list (Timestamp * Q)) :=
  omap (M := list)
       (λ exercise : string,
          match dfs !! exercise with
          | None => None
          | Some df =>
            let label := short_name exercise in
            Some (label, (λ r : SetRow, (Date r, Weight r)) <$> df)
          end) exercises.

Record Figure := {
  suptitle : string;
  ax_stats : list TableRow;
  ax_days : list string * list Z;
  ax_sets : list string * list Q;
  ax_volume : list string * list Q;
  ax_progress : list (string * list (Timestamp * Q))
}.

(** The default of the [year] parameter of [analyze_exercises]. *)
Definition analyze_exercises_year_default : Z := 2024.

(** Lines 12-39 of [create_comprehensive_report]: the figure that is
    later rendered.  The call on line 12 passes the mappings only. *)
Definition report_figure (data_strong_csv : pyexn + Frame)
    (exercise_mappings : list (string * list string)) (year : Z) : pyexn + Figure :=
  r <~ analyze_exercises data_strong_csv exercise_mappings analyze_exercises_year_default ;;
  let '(stats, dfs) := r in
  let main_exercises := exercise_mappings.*1 in
  let title := "Training Analysis Report - " +:+ pretty year in
  table <~ create_detailed_stats_table stats main_exercises ;;
  let days := create_training_days_plot stats main_exercises in
  sets <~ create_sets_per_session_plot stats main_exercises ;;
  let volume := create_volume_plot stats main_exercises in
  let progress := create_weight_progression_plot dfs main_exercises in
  inr {| suptitle := title; ax_stats := table; ax_days := days; ax_sets := sets;
         ax_volume := volume; ax_progress := progress |}.

(** ** The run (lines 41-44 and 206-220)

    The world the script runs in: what reading the data file yields, the
    content of ['output/training_report.png'] if the file exists, and the
    lines printed so far. *)
Record World {Image : Type} := {
  data_strong_csv : pyexn + Frame;
  training_report_png : option Image;
  stdout : list string
}.
Arguments World : clear implicits.

Definition print {Image} (line : string) (w : World Image) : World Image :=
  {| data_strong_csv := data_strong_csv w;
     training_report_png := training_report_png w;
     stdout := stdout w ++ [line] |}.

(** The world with the image file replaced by [png]. *)
Definition set_png {Image} (png : option Image) (w : World Image) : World Image :=
  {| data_strong_csv := data_strong_csv w;
     training_report_png := png;
     stdout := stdout w |}.

Definition msg_saved : string :=
  "Report has been generated and saved as 'output/training_report.png'".
Definition msg_not_found : string :=
  "Error: Could not find 'data/strong.csv'. Please check the file path.".
Definition msg_error (e : pyexn) : string := "An error occurred: " +:+ str e.

Section Run.
Context {Image : Type}.

(** Lines 41-44 ([tight_layout], [os.makedirs], [plt.savefig],
    [plt.close]) on the figure and on the image file as it is: whether
    they return or raise, and the image file afterwards.  Nothing is
    assumed about what a failing save leaves in the file. *)
Variable savefig : Figure → option Image → (pyexn + unit) * option Image.

Definition create_comprehensive_report (w : World Image)
    (exercise_mappings : list (string * list string)) (year : Z)
    : (pyexn + unit) * World Image :=
  match report_figure (data_strong_csv w) exercise_mappings year with
  | inl e => (inl e, w)
  | inr fig =>
    let '(result, png) := savefig fig (training_report_png w) in
    (result, set_png png w)
  end.

Definition main (w : World Image) : World Image :=
  match create_comprehensive_report w exercise_mappings 2024 with
  | (inr _, w') => print msg_saved w'
  | (inl e, w') =>
    if decide (exn_cls e = FileNotFoundError) then print msg_not_found w'
    else print (msg_error e) w'
  end.
End Run.

(** The selection of a group as the specification words it: the records
    whose exercise name is in the alias set and whose date is in the target
    year. *)
Definition spec_selection (df : DataFrame) (alt_names : list string) (year : Z)
    : list Row :=
  filter (λ r, Exercise_Name r ∈ alt_names ∧ dt_year (Date r) = year) df.

(** The frame the loop stores for a group with a non-empty selection. *)
Definition group_frame (df : DataFrame) (alt_names : list string) : list SetRow :=
  sort_values_Date (with_volume <$> filter_isin alt_names df).

(** ** Notions the statements use *)



(** A record contributes to a group when the run stores stats for the
    group, computed from the stored frame, and the record (with its
    volume) is a row of that frame. *)
Definition contributes (df : DataFrame) (m : list (string * list string)) (year : Z)
    (g : string) (r : Row) : Prop :=
  ∃ all_stats all_dfs s f,
    analyze_exercises (inr (full_frame df)) m year = inr (all_stats, all_dfs) ∧
    all_stats !! g = Some s ∧ all_dfs !! g = Some f ∧
    s = compute_stats f ∧ with_volume r ∈ f.

(** Everything of a figure but its title. *)
Definition panels (fig : Figure) :=
  (ax_stats fig, ax_days fig, ax_sets fig, ax_volume fig, ax_progress fig).

Definition report_panels (data : pyexn + Frame)
    (m : list (string * list string)) (year : Z) :=
  fig <~ report_figure data m year ;; inr (panels fig).

(** Two stats records that agree on the fields computed without a
    floating-point sum: the counts, the integer sum and the maximum. *)
Definition stats_agree (s s' : ExerciseStats) : Prop :=
  total_sets s = total_sets s' ∧
  total_reps s = total_reps s' ∧
  (max_weight s == max_weight s')%Q ∧
  training_days s = training_days s'.

(** The line a failed run prints for an exception (lines 217-220). *)
Definition error_line (e : pyexn) : string :=
  if decide (exn_cls e = FileNotFoundError) then msg_not_found else msg_error e.

(** ** Worked data *)

Definition squat_outputs : Outputs :=
  foldl (loop_body_full (filter_year 2024 squat_example)) (∅, ∅) exercise_mappings.

Definition squat_stats : ExerciseStats :=
  {| total_volume := 1365 # 1;
     total_sets := 3;
     total_reps := 13;
     avg_weight := 315 # 3;
     max_weight := 110 # 1;
     training_days := 2 |}.

Definition deadlift_example : DataFrame :=
  [ mk_row 2024 3 1 "Deadlift (Barbell)" (200 # 1) 5;
    mk_row 2024 2 1 "Deadlift Old Data" (180 # 1) 5;
    mk_row 2024 1 1 "Deadlift Old Data " (160 # 1) 8 ].

Definition last_year_example : DataFrame :=
  [ mk_row 2023 5 2 "Squat (Barbell)" (90 # 1) 5;
    mk_row 2023 5 9 "Squat (Barbell)" (95 # 1) 5 ].

Definition two_years_example : DataFrame := squat_example ++ last_year_example.



Definition squat_reversed_outputs : Outputs :=
  foldl (loop_body_full (filter_year 2024 (reverse squat_example))) (∅, ∅)
    exercise_mappings.

Definition squat_table_row : TableRow :=
  {| tr_name := "Squat";
     tr_training_days := 2;
     tr_total_sets := 3;
     tr_sets_per_day := 3 # 2;
     tr_total_reps := 13;
     tr_total_volume := 1365 # 1;
     tr_avg_weight := 315 # 3;
     tr_max_weight := 110 # 1 |}.

(** The figure of [squat_example] under a given title year. *)
Definition squat_figure (year : Z) : Figure :=
  {| suptitle := "Training Analysis Report - " +:+ pretty year;
     ax_stats := [squat_table_row];
     ax_days := (["Squat"%string], [2]);
     ax_sets := (["Squat"%string], [3 # 2]);
     ax_volume := (["Squat"%string], [1365 # 1]);
     ax_progress :=
       [("Squat"%string,
         (λ r : Row, (Date r, Weight r)) <$> squat_example)] |}.

(** A frame without the ['Weight'] column. *)
Definition no_weight_frame : Frame :=
  {| frame_columns := ["Date"; "Exercise Name"; "Reps"]%string;
     frame_rows := squat_example |}.

(** A save that always succeeds, and one that fails because the target
    cannot be created. *)
Definition savefig_ok (fig : Figure) (png : option unit)
    : (pyexn + unit) * option unit :=
  (inr (), Some ()).

Definition savefig_no_target (fig : Figure) (png : option unit)
    : (pyexn + unit) * option unit :=
  (raise FileNotFoundError
     "[Errno 2] No such file or directory: 'output/training_report.png'", png).

Definition world_of (data : pyexn + Frame) : World unit :=
  {| data_strong_csv := data; training_report_png := None; stdout := [] |}.

Definition missing_world : World unit :=
  world_of (raise FileNotFoundError
              "[Errno 2] No such file or directory: 'data/strong.csv'").

Definition unreadable_world : World unit :=
  world_of (raise PermissionError "[Errno 13] Permission denied: 'data/strong.csv'").

(** * Properties *)

(** ** The chronological order *)

Lemma ts_le_lex a b :
  ts_le a b ↔
    ts_year a < ts_year b ∨
    (ts_year a = ts_year b ∧
      (ts_month a < ts_month b ∨
      (ts_month a = ts_month b ∧
        (ts_day a < ts_day b ∨
        (ts_day a = ts_day b ∧ ts_nanos a ≤ ts_nanos b))))).
Proof.
  unfold ts_le, ts_compare.
  destruct (Z.compare_spec (ts_year a) (ts_year b));
    destruct (Z.compare_spec (ts_month a) (ts_month b));
    destruct (Z.compare_spec (ts_day a) (ts_day b));
    destruct (Z.compare_spec (ts_nanos a) (ts_nanos b));
    split; intros; try lia; try congruence; try discriminate.
Qed.

#[global] Instance row_date_le_total : Total row_date_le.
Proof.
  intros a b. unfold row_date_le. rewrite !ts_le_lex. lia.
Qed.

#[global] Instance row_date_le_trans : Transitive row_date_le.
Proof.
  intros a b c. unfold row_date_le. rewrite !ts_le_lex. lia.
Qed.

Lemma ts_le_date_le a b : ts_le a b → date_le (dt_date a) (dt_date b).
Proof.
  rewrite ts_le_lex. unfold date_le, dt_date. lia.
Qed.

(** ** Columns *)

Lemma len_nil_iff {A} (l : list A) : len l = 0 ↔ l = [].
Proof.
  unfold len. destruct l; simpl; split; intros; try done; lia.
Qed.

Lemma len_pos {A} (l : list A) : l ≠ [] → 1 ≤ len l.
Proof.
  unfold len. destruct l; [done | simpl; lia].
Qed.

Lemma len_Permutation {A} (l l' : list A) : l ≡ₚ l' → len l = len l'.
Proof.
  unfold len. intros H. by rewrite H.
Qed.

Lemma wrap_int64_add x y : wrap_int64 (x + wrap_int64 y) = wrap_int64 (x + y).
Proof.
  unfold wrap_int64.
  replace (x + ((y + 2 ^ 63) mod 2 ^ 64 - 2 ^ 63) + 2 ^ 63)
    with (x + (y + 2 ^ 63) mod 2 ^ 64) by lia.
  rewrite Zplus_mod_idemp_r. do 2 f_equal. lia.
Qed.


(** The wrapping sum is the plain sum, wrapped once. *)
Lemma sum_Z_wrap l : sum_Z l = wrap_int64 (foldr Z.add 0 l).
Proof.
  unfold sum_Z. induction l as [|x l IH]; [done |].
  cbn [foldr]. by rewrite IH, wrap_int64_add.
Qed.

Lemma sum_Z_Permutation l l' : l ≡ₚ l' → sum_Z l = sum_Z l'.
Proof.
  intros H. rewrite !sum_Z_wrap. f_equal.
  induction H; simpl; lia.
Qed.



Lemma sum_Q_Permutation l l' : l ≡ₚ l' → (sum_Q l == sum_Q l')%Q.
Proof.
  unfold sum_Q. induction 1; simpl.
  - reflexivity.
  - by rewrite IHPermutation.
  - ring.
  - by etransitivity.
Qed.

Lemma Qmax_cases (x y : Q) : Qmax x y = x ∨ Qmax x y = y.
Proof.
  unfold Qmax, GenericMinMax.gmax. destruct (x ?= y)%Q; auto.
Qed.

Lemma foldl_Qmax_ge (l : list Q) (x : Q) :
  (x <= foldl Qmax x l)%Q ∧ ∀ y, y ∈ l → (y <= foldl Qmax x l)%Q.
Proof.
  revert x. induction l as [|z l IH]; intros x; simpl.
  - split; [apply Qle_refl | intros y Hy; inversion Hy].
  - destruct (IH (Qmax x z)) as [H1 H2]. split.
    + eapply Qle_trans; [apply Q.le_max_l | exact H1].
    + intros y [-> | Hy]%elem_of_cons; [| by apply H2].
      eapply Qle_trans; [apply Q.le_max_r | exact H1].
Qed.

Lemma foldl_Qmax_elem (l : list Q) (x : Q) : foldl Qmax x l ∈ x :: l.
Proof.
  revert x. induction l as [|z l IH]; intros x; simpl.
  - set_solver.
  - specialize (IH (Qmax x z)). apply elem_of_cons in IH as [IH | IH].
    + rewrite IH. destruct (Qmax_cases x z) as [-> | ->]; set_solver.
    + set_solver.
Qed.

(** [max_Q] of a non-empty column is one of its values and bounds them
    all. *)
Lemma max_Q_spec (l : list Q) :
  l ≠ [] → max_Q l ∈ l ∧ ∀ y, y ∈ l → (y <= max_Q l)%Q.
Proof.
  intros Hl. destruct l as [|x l]; [done |]. simpl. split.
  - apply foldl_Qmax_elem.
  - destruct (foldl_Qmax_ge l x) as [H1 H2].
    intros y [-> | Hy]%elem_of_cons; auto.
Qed.

Lemma nunique_le_len `{EqDecision A} (l : list A) : nunique l ≤ len l.
Proof.
  unfold nunique, len. apply inj_le.
  induction l as [|x l IH]; simpl; [lia |].
  destruct (decide_rel _ _ _); simpl; lia.
Qed.

Lemma nunique_pos `{EqDecision A} (l : list A) : l ≠ [] → 1 ≤ nunique l.
Proof.
  intros Hl. unfold nunique. apply len_pos. intros Hnil.
  destruct l as [|x l]; [done |].
  assert (x ∈ remove_dups (x :: l)) as Hx by (apply elem_of_remove_dups; set_solver).
  rewrite Hnil in Hx. inversion Hx.
Qed.

Lemma nunique_const `{EqDecision A} (l : list A) (d : A) :
  l ≠ [] → (∀ x, x ∈ l → x = d) → nunique l = 1.
Proof.
  intros Hl Hd. unfold nunique, len.
  assert (remove_dups l = [d]) as ->; [| done].
  induction l as [|x l IH]; [done |].
  assert (x = d) as -> by (apply Hd; set_solver).
  cbn [remove_dups]. destruct (decide (l = [])) as [-> | Hne].
  - destruct (decide_rel _ _ _) as [Hin | _]; [inversion Hin | done].
  - destruct (decide_rel _ _ _) as [_ | Hnin].
    + apply IH; [done | intros; apply Hd; set_solver].
    + exfalso. apply Hnin.
      destruct l as [|x' l]; [done |]. rewrite (Hd x'); set_solver.
Qed.

(** ** The per-group frame *)

Lemma group_frame_Permutation df alt_names :
  group_frame df alt_names ≡ₚ with_volume <$> filter_isin alt_names df.
Proof.
  apply merge_sort_Permutation.
Qed.

Lemma group_frame_sorted df alt_names :
  StronglySorted row_date_le (group_frame df alt_names).
Proof.
  apply StronglySorted_merge_sort; apply _.
Qed.

Lemma group_frame_nil df alt_names :
  group_frame df alt_names = [] ↔ filter_isin alt_names df = [].
Proof.
  split; intros H.
  - pose proof (group_frame_Permutation df alt_names) as HP.
    rewrite H in HP. symmetry in HP. apply Permutation_nil_r in HP.
    by apply fmap_nil_inv in HP.
  - unfold group_frame. by rewrite H.
Qed.

Lemma selection_filters df alt_names year :
  spec_selection df alt_names year = filter_isin alt_names (filter_year year df).
Proof.
  unfold spec_selection, filter_isin, filter_year.
  etrans; [| symmetry; apply list_filter_filter]. done.
Qed.

Lemma elem_of_group_frame df alt_names (x : SetRow) :
  x ∈ group_frame df alt_names ↔
    ∃ r, x = with_volume r ∧ r ∈ df ∧ Exercise_Name r ∈ alt_names.
Proof.
  rewrite group_frame_Permutation, list_elem_of_fmap.
  unfold filter_isin. setoid_rewrite list_elem_of_filter.
  split; intros (r & Hx & H); exists r; tauto.
Qed.

(** ** The loop over the mappings *)

Section Loop.
Variable df : DataFrame.

Implicit Types (acc : Outputs) (m : list (string * list string)) (g : string).

Lemma loop_body_full_empty acc g alt_names :
  filter_isin alt_names df = [] → loop_body_full df acc (g, alt_names) = acc.
Proof.
  intros H. destruct acc as [st dfs]. simpl.
  rewrite decide_True; [done | by apply len_nil_iff].
Qed.

Lemma loop_body_full_insert acc g alt_names :
  filter_isin alt_names df ≠ [] →
  loop_body_full df acc (g, alt_names) =
    (<[g := compute_stats (group_frame df alt_names)]> acc.1,
     <[g := group_frame df alt_names]> acc.2).
Proof.
  intros H. destruct acc as [st dfs]. simpl.
  rewrite decide_False; [done | by rewrite len_nil_iff].
Qed.

Lemma loop_body_full_other acc g g' alt_names :
  g' ≠ g →
  (loop_body_full df acc (g', alt_names)).1 !! g = acc.1 !! g ∧
  (loop_body_full df acc (g', alt_names)).2 !! g = acc.2 !! g.
Proof.
  intros Hne. destruct (decide (filter_isin alt_names df = [])) as [He | He].
  - by rewrite loop_body_full_empty.
  - rewrite loop_body_full_insert by done. simpl.
    by rewrite !lookup_insert_ne.
Qed.

(** A key that is not iterated keeps what the accumulators held. *)
Lemma foldl_loop_notin m acc g :
  g ∉ m.*1 →
  (foldl (loop_body_full df) acc m).1 !! g = acc.1 !! g ∧
  (foldl (loop_body_full df) acc m).2 !! g = acc.2 !! g.
Proof.
  revert acc. induction m as [|[g' alts] m IH]; intros acc Hg; [done |].
  simpl in *. apply not_elem_of_cons in Hg as [Hne Hg].
  destruct (IH (loop_body_full df acc (g', alts)) Hg) as [-> ->].
  by apply loop_body_full_other.
Qed.

(** With distinct keys, the entry of a key decides what is stored. *)
Lemma foldl_loop_in m acc g alt_names :
  NoDup m.*1 → (g, alt_names) ∈ m →
  let out := foldl (loop_body_full df) acc m in
  if decide (filter_isin alt_names df = []) then
    out.1 !! g = acc.1 !! g ∧ out.2 !! g = acc.2 !! g
  else
    out.1 !! g = Some (compute_stats (group_frame df alt_names)) ∧
    out.2 !! g = Some (group_frame df alt_names).
Proof.
  revert acc. induction m as [|[g' alts] m IH]; intros acc Hnd Hin.
  { inversion Hin. }
  simpl in Hnd. apply NoDup_cons in Hnd as [Hfresh Hnd].
  apply elem_of_cons in Hin as [Heq | Hin].
  - injection Heq as <- <-. simpl.
    destruct (foldl_loop_notin m (loop_body_full df acc (g, alt_names)) g Hfresh)
      as [-> ->].
    case_decide as He.
    + by rewrite loop_body_full_empty.
    + rewrite loop_body_full_insert by done. simpl.
      by rewrite !lookup_insert_eq.
  - assert (g' ≠ g) as Hne.
    { intros ->. apply Hfresh. apply list_elem_of_fmap.
      by exists (g, alt_names). }
    specialize (IH (loop_body_full df acc (g', alts)) Hnd Hin).
    destruct (loop_body_full_other acc g g' alts Hne) as [E1 E2].
    cbn [foldl] in *. cbv zeta in *.
    case_decide; [rewrite <- E1, <- E2 |]; exact IH.
Qed.

(** Whatever the keys: an entry of the outputs is either inherited from
    the accumulators or was stored for a non-empty selection, and the
    two dictionaries go together. *)
Lemma foldl_loop_inv m acc g :
  let out := foldl (loop_body_full df) acc m in
  (out.1 !! g = acc.1 !! g ∧ out.2 !! g = acc.2 !! g) ∨
  ∃ alt_names,
    (g, alt_names) ∈ m ∧ filter_isin alt_names df ≠ [] ∧
    out.1 !! g = Some (compute_stats (group_frame df alt_names)) ∧
    out.2 !! g = Some (group_frame df alt_names).
Proof.
  revert acc. induction m as [|[g' alts] m IH]; intros acc; simpl; [by left |].
  destruct (IH (loop_body_full df acc (g', alts))) as [[E1 E2] | (a & Hin & Hne & E1 & E2)].
  - simpl in *. rewrite E1, E2.
    destruct (decide (g' = g)) as [-> | Hg].
    + destruct (decide (filter_isin alts df = [])) as [He | He].
      * left. by rewrite loop_body_full_empty.
      * right. exists alts. rewrite loop_body_full_insert by done. simpl.
        rewrite !lookup_insert_eq. split; [set_solver | done].
    + left. by apply loop_body_full_other.
  - right. exists a. split; [set_solver | done].
Qed.
End Loop.

(** ** Missing columns *)

Lemma require_column_full df name :
  name ∈ strong_columns → require_column (full_frame df) name = inr ().
Proof.
  intros H. unfold require_column. by rewrite decide_True.
Qed.

(** With its four columns, the frame makes no iteration raise. *)
Lemma loop_body_full_frame columns df acc item :
  strong_columns ⊆ columns →
  loop_body {| frame_columns := columns; frame_rows := df |} acc item =
    inr (loop_body_full df acc item).
Proof.
  intros Hcols. destruct acc as [st dfs], item as [g alts].
  assert (∀ name, name ∈ strong_columns →
            require_column {| frame_columns := columns; frame_rows := df |} name =
              inr ()) as Hcol.
  { intros name Hn. unfold require_column. rewrite decide_True; [done | by apply Hcols]. }
  unfold loop_body, loop_body_full. cbn [frame_rows].
  rewrite !Hcol by (unfold strong_columns; set_solver).
  cbn [bind]. by destruct (decide _).
Qed.

Lemma for_items_full_frame columns df m acc :
  strong_columns ⊆ columns →
  for_items {| frame_columns := columns; frame_rows := df |} m acc =
    inr (foldl (loop_body_full df) acc m).
Proof.
  intros Hcols. revert acc. induction m as [|item m IH]; intros acc; [done |].
  cbn [for_items foldl]. rewrite loop_body_full_frame by done. cbn [bind]. apply IH.
Qed.

(** An iteration that returns stored what [loop_body_full] says. *)
Lemma loop_body_success fr acc item acc' :
  loop_body fr acc item = inr acc' → acc' = loop_body_full (frame_rows fr) acc item.
Proof.
  destruct acc as [st dfs], item as [g alts]. unfold loop_body, loop_body_full.
  destruct (require_column fr "Exercise Name") as [e | []]; [discriminate |].
  cbn [bind]. destruct (decide _); [by intros [= <-] |].
  destruct (require_column fr "Weight") as [e | []]; [discriminate |].
  cbn [bind].
  destruct (require_column fr "Reps") as [e | []]; [discriminate |].
  cbn [bind]. by intros [= <-].
Qed.

Lemma for_items_success fr m acc out :
  for_items fr m acc = inr out → out = foldl (loop_body_full (frame_rows fr)) acc m.
Proof.
  revert acc. induction m as [|item m IH]; intros acc; cbn [for_items foldl].
  - by intros [= <-].
  - destruct (loop_body fr acc item) as [e | acc'] eqn:Hbody; [discriminate |].
    cbn [bind]. intros Hout. rewrite <- (loop_body_success _ _ _ _ Hbody). by apply IH.
Qed.

Lemma analyze_exercises_inr df m year :
  analyze_exercises (inr (full_frame df)) m year =
    inr (foldl (loop_body_full (filter_year year df)) (∅, ∅) m).
Proof.
  unfold analyze_exercises. cbn [bind].
  rewrite require_column_full by (unfold strong_columns; set_solver).
  cbn [bind]. by apply for_items_full_frame.
Qed.

(** A run that returns on some frame returns the same on the frame with
    the four columns and the same rows. *)
Lemma analyze_exercises_success fr m year out :
  analyze_exercises (inr fr) m year = inr out →
  analyze_exercises (inr (full_frame (frame_rows fr))) m year = inr out.
Proof.
  rewrite analyze_exercises_inr. unfold analyze_exercises. cbn [bind].
  destruct (require_column fr "Date") as [e | []]; [discriminate |].
  cbn [bind]. intros Hout. apply for_items_success in Hout. by rewrite Hout.
Qed.

(** Every entry of the outputs comes from a mapping whose selection is
    not empty; it is the stats of, and the frame of, that selection. *)
Lemma analyze_exercises_present df m year all_stats all_dfs g :
  analyze_exercises (inr (full_frame df)) m year = inr (all_stats, all_dfs) →
  is_Some (all_stats !! g) ∨ is_Some (all_dfs !! g) →
  ∃ alt_names,
    (g, alt_names) ∈ m ∧ spec_selection df alt_names year ≠ [] ∧
    all_stats !! g = Some (compute_stats (group_frame (filter_year year df) alt_names)) ∧
    all_dfs !! g = Some (group_frame (filter_year year df) alt_names).
Proof.
  rewrite analyze_exercises_inr. intros [= Hout] Hsome.
  pose proof (foldl_loop_inv (filter_year year df) m (∅, ∅) g) as Hinv.
  simpl in Hinv. rewrite Hout in Hinv. simpl in Hinv.
  destruct Hinv as [[E1 E2] | (a & Hin & Hne & E1 & E2)].
  - rewrite E1, E2, !lookup_empty in Hsome.
    destruct Hsome as [[? ?] | [? ?]]; done.
  - exists a. by rewrite selection_filters.
Qed.

(** With distinct keys, the entry of a group is decided by its own
    selection. *)
Lemma analyze_exercises_lookup df m year all_stats all_dfs g alt_names :
  analyze_exercises (inr (full_frame df)) m year = inr (all_stats, all_dfs) →
  NoDup m.*1 → (g, alt_names) ∈ m →
  if decide (spec_selection df alt_names year = []) then
    all_stats !! g = None ∧ all_dfs !! g = None
  else
    all_stats !! g = Some (compute_stats (group_frame (filter_year year df) alt_names)) ∧
    all_dfs !! g = Some (group_frame (filter_year year df) alt_names).
Proof.
  rewrite analyze_exercises_inr. intros [= Hout] Hnd Hin.
  pose proof (foldl_loop_in (filter_year year df) m (∅, ∅) g alt_names Hnd Hin) as H.
  simpl in H. rewrite Hout in H. simpl in H.
  rewrite selection_filters. destruct (decide _); [| done].
  by rewrite !lookup_empty in H.
Qed.

(** A column of the stored frame is, up to order, the column of the
    selection. *)
Lemma group_frame_column {A} (f : Row → A) df alt_names :
  (λ x : SetRow, f x) <$> group_frame df alt_names ≡ₚ f <$> filter_isin alt_names df.
Proof.
  rewrite group_frame_Permutation, <- list_fmap_compose. done.
Qed.


Lemma compute_stats_training_days_pos f :
  f ≠ [] → 1 ≤ training_days (compute_stats f).
Proof.
  intros Hf. simpl. apply nunique_pos. by intros ?%fmap_nil_inv.
Qed.

(** * The claims *)

Lemma squat_outputs_run :
  analyze_exercises (inr (full_frame squat_example)) exercise_mappings 2024 =
    inr (squat_outputs.1, squat_outputs.2).
Proof. vm_compute. reflexivity. Defined.

Lemma squat_outputs_stats : squat_outputs.1 !! "Squat (Barbell)"%string = Some squat_stats.
Proof. vm_compute. reflexivity. Defined.

Lemma exercise_mappings_NoDup : NoDup exercise_mappings.*1.
Proof. apply (bool_decide_unpack _). vm_compute. exact I. Defined.

Lemma squat_in_mappings :
  ("Squat (Barbell)"%string, ["Squat (Barbell)"%string]) ∈ exercise_mappings.
Proof. apply elem_of_cons. left. reflexivity. Defined.

Lemma squat_selection_nonempty :
  spec_selection squat_example ["Squat (Barbell)"%string] 2024 ≠ [].
Proof. vm_compute. discriminate. Defined.





(** C2.  A group of the mappings whose selection is empty is a key of
    neither output of [analyze_exercises], and the call returns normally. *)
Theorem empty_group_absent df m year g alt_names :
  NoDup m.*1 → (g, alt_names) ∈ m →
  spec_selection df alt_names year = [] →
  ∃ all_stats all_dfs,
    analyze_exercises (inr (full_frame df)) m year = inr (all_stats, all_dfs) ∧
    all_stats !! g = None ∧ all_dfs !! g = None.
Proof.
  intros Hnd Hin Hsel.
  destruct (foldl (loop_body_full (filter_year year df)) (∅, ∅) m) as [st dfs] eqn:Hout.
  exists st, dfs.
  assert (analyze_exercises (inr (full_frame df)) m year = inr (st, dfs)) as Hrun.
  { by rewrite analyze_exercises_inr, Hout. }
  split; [exact Hrun |].
  pose proof (analyze_exercises_lookup _ _ _ _ _ _ _ Hrun Hnd Hin) as H.
  by rewrite decide_True in H.
Qed.

Lemma empty_group_absent_witness :
  ∃ all_stats all_dfs,
    analyze_exercises (inr (full_frame squat_example)) exercise_mappings 2024 = inr (all_stats, all_dfs) ∧
    all_stats !! "Deadlift (Barbell)"%string = None ∧
    all_dfs !! "Deadlift (Barbell)"%string = None.
Proof.
  apply (empty_group_absent squat_example exercise_mappings 2024
           "Deadlift (Barbell)" ["Deadlift (Barbell)"; "Deadlift Old Data "]%string).
  - exact exercise_mappings_NoDup.
  - apply elem_of_cons. right. apply elem_of_cons. left. reflexivity.
  - vm_compute. reflexivity.
Defined.

(** C3, as stated, fails: with the mappings of the script a record named
    ["Deadlift Old Data"] (no trailing blank) dated in the target year is
    not part of the ["Deadlift (Barbell)"] group. *)
Lemma deadlift_old_data_unspaced_ignored :
  let r := mk_row 2024 2 1 "Deadlift Old Data" (180 # 1) 5 in
  r ∈ deadlift_example ∧ dt_year (Date r) = 2024 ∧
  ¬ contributes deadlift_example exercise_mappings 2024 "Deadlift (Barbell)" r.
Proof.
  intros r. split; [| split].
  - apply elem_of_cons. right. apply elem_of_cons. left. reflexivity.
  - reflexivity.
  - intros (st & dfs & s & f & Hrun & _ & Hf & _ & Hr).
    rewrite analyze_exercises_inr in Hrun. injection Hrun as <- <-.
    vm_compute in Hf. injection Hf as <-.
    apply elem_of_cons in Hr as [Hr | Hr]; [discriminate Hr |].
    apply elem_of_cons in Hr as [Hr | Hr]; [discriminate Hr |].
    inversion Hr.
Qed.

(** C3, amended.  With the mappings of the script, every record dated in
    the target year whose name is exactly ["Deadlift (Barbell)"] or exactly
    ["Deadlift Old Data "] (with its trailing blank) contributes to the
    ["Deadlift (Barbell)"] group, whose [total_sets] counts the records of
    both names. *)
Theorem deadlift_aliases_merged df year r :
  r ∈ df → dt_year (Date r) = year →
  Exercise_Name r = "Deadlift (Barbell)"%string ∨
    Exercise_Name r = "Deadlift Old Data "%string →
  contributes df exercise_mappings year "Deadlift (Barbell)" r ∧
  ∀ all_stats all_dfs s,
    analyze_exercises (inr (full_frame df)) exercise_mappings year = inr (all_stats, all_dfs) →
    all_stats !! "Deadlift (Barbell)"%string = Some s →
    total_sets s =
      len (filter (λ x, (Exercise_Name x = "Deadlift (Barbell)"%string ∨
                         Exercise_Name x = "Deadlift Old Data "%string) ∧
                        dt_year (Date x) = year) df).
Proof.
  intros Hr Hy Hname.
  set (alts := ["Deadlift (Barbell)"; "Deadlift Old Data "]%string).
  assert (("Deadlift (Barbell)"%string, alts) ∈ exercise_mappings) as Hin.
  { apply elem_of_cons. right. apply elem_of_cons. by left. }
  assert (Exercise_Name r ∈ alts) as Halt.
  { subst alts. rewrite !elem_of_cons. tauto. }
  assert (r ∈ spec_selection df alts year) as Hsel.
  { by apply list_elem_of_filter. }
  assert (spec_selection df alts year ≠ []) as Hne.
  { intros E. rewrite E in Hsel. inversion Hsel. }
  assert (∀ st dfs,
            analyze_exercises (inr (full_frame df)) exercise_mappings year = inr (st, dfs) →
            st !! "Deadlift (Barbell)"%string =
              Some (compute_stats (group_frame (filter_year year df) alts)) ∧
            dfs !! "Deadlift (Barbell)"%string =
              Some (group_frame (filter_year year df) alts)) as Hlook.
  { intros st dfs Hrun.
    pose proof (analyze_exercises_lookup _ _ _ _ _ _ _ Hrun
                  exercise_mappings_NoDup Hin) as H.
    by rewrite decide_False in H. }
  split.
  - destruct (foldl (loop_body_full (filter_year year df)) (∅, ∅) exercise_mappings)
      as [st dfs] eqn:Hout.
    assert (analyze_exercises (inr (full_frame df)) exercise_mappings year = inr (st, dfs)) as Hrun.
    { by rewrite analyze_exercises_inr, Hout. }
    destruct (Hlook _ _ Hrun) as [Hs Hf].
    exists st, dfs. do 2 eexists. split; [done |]. split; [exact Hs |].
    split; [exact Hf |]. split; [done |].
    apply elem_of_group_frame. exists r. split; [done |]. split; [| done].
    by apply list_elem_of_filter.
  - intros st dfs s Hrun Hs. destruct (Hlook _ _ Hrun) as [Hs' _].
    rewrite Hs' in Hs. injection Hs as <-.
    cbn [compute_stats total_sets].
    rewrite (len_Permutation _ _ (group_frame_Permutation _ _)).
    unfold len. rewrite length_fmap. do 2 f_equal.
    rewrite <- selection_filters. unfold spec_selection.
    apply list_filter_iff. intros x. subst alts.
    rewrite !elem_of_cons, elem_of_nil. tauto.
Qed.

Lemma deadlift_aliases_merged_witness :
  contributes deadlift_example exercise_mappings 2024 "Deadlift (Barbell)"
    (mk_row 2024 1 1 "Deadlift Old Data " (160 # 1) 8).
Proof.
  apply (deadlift_aliases_merged deadlift_example 2024
           (mk_row 2024 1 1 "Deadlift Old Data " (160 # 1) 8)).
  - apply elem_of_cons. right. apply elem_of_cons. right.
    apply elem_of_cons. left. reflexivity.
  - reflexivity.
  - right. reflexivity.
Defined.

(** ** Division by the number of training days *)

Lemma truediv_inr a b : b ≠ 0 → truediv a b = inr (inject_Z a / inject_Z b)%Q.
Proof.
  intros Hb. unfold truediv. by rewrite decide_False.
Qed.

Lemma table_rows_inr stats exercises :
  (∀ g s, stats !! g = Some s → 1 ≤ training_days s) →
  ∃ table_data, table_rows stats exercises = inr table_data.
Proof.
  intros Hpos. induction exercises as [|ex exercises [rows IH]]; simpl.
  - by eexists.
  - destruct (stats !! ex) as [s|] eqn:Hs; [| by eexists].
    rewrite truediv_inr by (specialize (Hpos _ _ Hs); lia).
    simpl. rewrite IH. simpl. by eexists.
Qed.

(** What [create_detailed_stats_table] returns or raises, from its loop. *)
Lemma create_detailed_stats_table_cases stats exercises :
  match table_rows stats exercises with
  | inl e => create_detailed_stats_table stats exercises = inl e
  | inr [] =>
    create_detailed_stats_table stats exercises =
      raise IndexError "list index out of range"
  | inr table_data => create_detailed_stats_table stats exercises = inr table_data
  end.
Proof.
  unfold create_detailed_stats_table.
  by destruct (table_rows stats exercises) as [e | [|row rows]].
Qed.

Lemma create_detailed_stats_table_inr_inv stats exercises table_data :
  create_detailed_stats_table stats exercises = inr table_data →
  table_rows stats exercises = inr table_data ∧ table_data ≠ [].
Proof.
  pose proof (create_detailed_stats_table_cases stats exercises) as H.
  destruct (table_rows stats exercises) as [e | [|row rows]];
    rewrite H; [discriminate | discriminate |].
  by intros [= <-].
Qed.

Lemma sets_per_session_values_inr l :
  Forall (λ s, 1 ≤ training_days s) l →
  ∃ vs, sets_per_session_values l = inr vs.
Proof.
  induction 1 as [|s l Hs _ [vs IH]]; simpl.
  - by eexists.
  - rewrite truediv_inr by lia. simpl. rewrite IH. simpl. by eexists.
Qed.

Lemma create_sets_per_session_plot_inr stats exercises :
  (∀ g s, stats !! g = Some s → 1 ≤ training_days s) →
  ∃ bars, create_sets_per_session_plot stats exercises = inr bars.
Proof.
  intros Hpos. unfold create_sets_per_session_plot.
  destruct (sets_per_session_values_inr (present_stats stats exercises)) as [vs ->].
  - apply Forall_forall. intros s Hs. unfold present_stats in Hs.
    apply list_elem_of_omap in Hs as (g & _ & Hg). by eapply Hpos.
  - simpl. by eexists.
Qed.

Lemma stats_training_days_pos df m year all_stats all_dfs g s :
  analyze_exercises (inr (full_frame df)) m year = inr (all_stats, all_dfs) →
  all_stats !! g = Some s → 1 ≤ training_days s.
Proof.
  intros Hrun Hs.
  destruct (analyze_exercises_present _ _ _ _ _ g Hrun) as (a & _ & Hne & Hs' & _).
  { left. by eexists. }
  rewrite Hs' in Hs. injection Hs as <-.
  apply compute_stats_training_days_pos.
  rewrite group_frame_nil, <- selection_filters. done.
Qed.

(** C5.  Every group of the stats output has [training_days >= 1], so the
    divisions [total_sets / training_days] of the table and of the
    sets-per-session bar plot never divide by zero, over any list of
    exercises: the loop of the table completes, the table function raises
    no [ZeroDivisionError], and the bar plot is built. *)
Theorem training_days_positive df m year all_stats all_dfs :
  analyze_exercises (inr (full_frame df)) m year = inr (all_stats, all_dfs) →
  (∀ g s, all_stats !! g = Some s → 1 ≤ training_days s) ∧
  ∀ exercises,
    (∃ table_data, table_rows all_stats exercises = inr table_data) ∧
    (∀ e, create_detailed_stats_table all_stats exercises = inl e →
          exn_cls e ≠ ZeroDivisionError) ∧
    (∃ bars, create_sets_per_session_plot all_stats exercises = inr bars).
Proof.
  intros Hrun.
  pose proof (λ g s, stats_training_days_pos _ _ _ _ _ g s Hrun) as Hpos.
  split; [exact Hpos |]. intros exercises.
  destruct (table_rows_inr all_stats exercises Hpos) as [rows Hrows].
  split; [by exists rows |]. split.
  - intros e. pose proof (create_detailed_stats_table_cases all_stats exercises) as H.
    rewrite Hrows in H. destruct rows; rewrite H; [| discriminate].
    by intros [= <-].
  - by apply create_sets_per_session_plot_inr.
Qed.

Lemma training_days_positive_witness :
  1 ≤ training_days squat_stats ∧
  ∃ table_data, table_rows squat_outputs.1 exercise_mappings.*1 = inr table_data.
Proof.
  pose proof (training_days_positive squat_example exercise_mappings 2024 _ _
                squat_outputs_run) as [Hpos Hdiv].
  split.
  - exact (Hpos _ _ squat_outputs_stats).
  - exact (proj1 (Hdiv exercise_mappings.*1)).
Defined.

(** ** The year filter *)

Lemma filter_year_drop df1 r df2 year :
  dt_year (Date r) ≠ year →
  filter_year year (df1 ++ r :: df2) = filter_year year (df1 ++ df2).
Proof.
  intros Hy. unfold filter_year.
  rewrite !filter_app, filter_cons_False; done.
Qed.

(** C6.  A record dated outside the target year changes nothing: the
    outputs are those of the data without it, and it is a row of no
    group's series, whatever its exercise name. *)
Theorem out_of_year_ignored df1 r df2 m year :
  dt_year (Date r) ≠ year →
  analyze_exercises (inr (full_frame (df1 ++ r :: df2))) m year =
    analyze_exercises (inr (full_frame (df1 ++ df2))) m year ∧
  ∀ all_stats all_dfs g f v,
    analyze_exercises (inr (full_frame (df1 ++ r :: df2))) m year = inr (all_stats, all_dfs) →
    all_dfs !! g = Some f →
    {| row := r; Volume := v |} ∉ f.
Proof.
  intros Hy. split.
  - rewrite !analyze_exercises_inr. by rewrite filter_year_drop.
  - intros st dfs g f v Hrun Hf Hin.
    destruct (analyze_exercises_present _ _ _ _ _ g Hrun) as (a & _ & _ & _ & Hf').
    { right. by eexists. }
    rewrite Hf' in Hf. injection Hf as <-.
    apply elem_of_group_frame in Hin as (r' & Heq & Hr' & _).
    injection Heq as -> _.
    apply list_elem_of_filter in Hr' as [Hyear _]. done.
Qed.

Lemma out_of_year_ignored_witness :
  analyze_exercises
    (inr (full_frame (squat_example ++ mk_row 2023 12 31 "Squat (Barbell)" (300 # 1) 1 :: []))) 
    exercise_mappings 2024 =
  analyze_exercises (inr (full_frame (squat_example ++ []))) exercise_mappings 2024.
Proof.
  apply (out_of_year_ignored squat_example
           (mk_row 2023 12 31 "Squat (Barbell)" (300 # 1) 1) [] exercise_mappings 2024).
  vm_compute. discriminate.
Defined.

(** C7.  For a group of the stats output, [training_days] is at most
    [total_sets], and it is [1] when all the matching records have the
    same calendar date. *)
Theorem training_days_bounds df m year all_stats all_dfs g s :
  analyze_exercises (inr (full_frame df)) m year = inr (all_stats, all_dfs) →
  all_stats !! g = Some s →
  training_days s ≤ total_sets s ∧
  ∀ d,
    (∀ alt_names r, (g, alt_names) ∈ m → r ∈ spec_selection df alt_names year →
       dt_date (Date r) = d) →
    training_days s = 1.
Proof.
  intros Hrun Hs.
  destruct (analyze_exercises_present _ _ _ _ _ g Hrun) as (a & Hin & Hne & Hs' & _).
  { left. by eexists. }
  rewrite Hs' in Hs. injection Hs as <-.
  cbn [compute_stats training_days total_sets]. split.
  - etrans; [apply nunique_le_len |]. unfold len. by rewrite length_fmap.
  - intros d Hd. apply (nunique_const _ d).
    + intros E%fmap_nil_inv. apply group_frame_nil in E.
      by rewrite <- selection_filters in E.
    + intros x (y & -> & Hy)%list_elem_of_fmap.
      apply elem_of_group_frame in Hy as (r & -> & Hr & Halt).
      apply (Hd a r Hin). apply list_elem_of_filter.
      apply list_elem_of_filter in Hr as [Hyear Hr]. done.
Qed.

Lemma training_days_bounds_witness :
  training_days squat_stats ≤ total_sets squat_stats.
Proof.
  exact (proj1 (training_days_bounds squat_example exercise_mappings 2024 _ _ _ _
                  squat_outputs_run squat_outputs_stats)).
Defined.

(** C9.  The series stored for a group is in ascending order of the
    ['Date'] column (hence of the calendar date), and it consists of the
    rows selected for one of the group's mappings. *)
Theorem series_sorted df m year all_stats all_dfs g f :
  analyze_exercises (inr (full_frame df)) m year = inr (all_stats, all_dfs) →
  all_dfs !! g = Some f →
  StronglySorted ts_le ((λ x : SetRow, Date x) <$> f) ∧
  StronglySorted date_le ((λ x : SetRow, dt_date (Date x)) <$> f) ∧
  ∃ alt_names,
    (g, alt_names) ∈ m ∧ f ≡ₚ with_volume <$> spec_selection df alt_names year.
Proof.
  intros Hrun Hf.
  destruct (analyze_exercises_present _ _ _ _ _ g Hrun) as (a & Hin & _ & _ & Hf').
  { right. by eexists. }
  rewrite Hf' in Hf. injection Hf as <-.
  pose proof (group_frame_sorted (filter_year year df) a) as Hsorted.
  split; [| split].
  - apply StronglySorted_fmap with (R1 := row_date_le); [| done].
    intros x y Hxy. exact Hxy.
  - apply StronglySorted_fmap with (R1 := row_date_le); [| done].
    intros x y Hxy. by apply ts_le_date_le.
  - exists a. split; [done |].
    rewrite selection_filters. apply group_frame_Permutation.
Qed.

Lemma series_sorted_witness :
  StronglySorted ts_le ((λ x : SetRow, Date x) <$> group_frame (filter_year 2024 squat_example) ["Squat (Barbell)"%string]).
Proof.
  refine (proj1 (series_sorted squat_example exercise_mappings 2024 _ _
                   "Squat (Barbell)" _ squat_outputs_run _)).
  vm_compute. reflexivity.
Defined.

(** ** Mean and maximum *)

Lemma mean_Permutation l l' : l ≡ₚ l' → (mean l == mean l')%Q.
Proof.
  intros H. unfold mean.
  rewrite (sum_Q_Permutation _ _ H), (len_Permutation _ _ H). reflexivity.
Qed.

Lemma max_Q_Permutation_spec l l' :
  l ≡ₚ l' → l' ≠ [] → max_Q l ∈ l' ∧ ∀ y, y ∈ l' → (y <= max_Q l)%Q.
Proof.
  intros H Hne.
  assert (l ≠ []) as Hl.
  { intros ->. by apply Permutation_nil_l in H. }
  destruct (max_Q_spec l Hl) as [Hin Hge]. split.
  - by rewrite <- H.
  - intros y Hy. apply Hge. by rewrite H.
Qed.

(** C8.  For a group of the mappings with a non-empty selection,
    [avg_weight] is the sum of the selected weights divided by their
    number and [max_weight] is one of the selected weights and no smaller
    than any of them; and the three example records of ["Squat (Barbell)"]
    give, for 2024, 3 sets, 13 reps, volume 1365, 2 training days,
    maximum 110 and mean 105. *)
Theorem weight_mean_and_max :
  (∀ df m year all_stats all_dfs g alt_names,
     analyze_exercises (inr (full_frame df)) m year = inr (all_stats, all_dfs) →
     NoDup m.*1 → (g, alt_names) ∈ m →
     spec_selection df alt_names year ≠ [] →
     ∃ s, all_stats !! g = Some s ∧
       (avg_weight s ==
          sum_Q (Weight <$> spec_selection df alt_names year) /
            inject_Z (len (spec_selection df alt_names year)))%Q ∧
       max_weight s ∈ Weight <$> spec_selection df alt_names year ∧
       ∀ r, r ∈ spec_selection df alt_names year → (Weight r <= max_weight s)%Q) ∧
  (∃ all_stats all_dfs s,
     analyze_exercises (inr (full_frame squat_example)) exercise_mappings 2024 =
       inr (all_stats, all_dfs) ∧
     all_stats !! "Squat (Barbell)"%string = Some s ∧
     total_sets s = 3 ∧ total_reps s = 13 ∧ (total_volume s == 1365 # 1)%Q ∧
     training_days s = 2 ∧ (max_weight s == 110 # 1)%Q ∧
     (avg_weight s == 105 # 1)%Q).
Proof.
  split.
  - intros df m year st dfs g alts Hrun Hnd Hin Hsel.
    pose proof (analyze_exercises_lookup _ _ _ _ _ _ _ Hrun Hnd Hin) as H.
    rewrite decide_False in H by done. destruct H as [Hs _].
    eexists. split; [exact Hs |].
    rewrite selection_filters in *.
    cbn [compute_stats avg_weight max_weight].
    pose proof (group_frame_column Weight (filter_year year df) alts) as HP.
    split.
    + rewrite (mean_Permutation _ _ HP). unfold mean, len.
      rewrite length_fmap. reflexivity.
    + destruct (max_Q_Permutation_spec _ _ HP) as [Hmax Hge].
      { by intros ?%fmap_nil_inv. }
      split; [exact Hmax |].
      intros r Hr. apply Hge. apply list_elem_of_fmap. by exists r.
  - exists squat_outputs.1, squat_outputs.2, squat_stats.
    split; [exact squat_outputs_run |].
    split; [exact squat_outputs_stats |].
    repeat split.
Qed.

Lemma weight_mean_and_max_witness :
  ∃ s, squat_outputs.1 !! "Squat (Barbell)"%string = Some s ∧
    (avg_weight s ==
       sum_Q (Weight <$> spec_selection squat_example ["Squat (Barbell)"%string] 2024) /
         inject_Z (len (spec_selection squat_example ["Squat (Barbell)"%string] 2024)))%Q ∧
    max_weight s ∈ Weight <$> spec_selection squat_example ["Squat (Barbell)"%string] 2024 ∧
    ∀ r, r ∈ spec_selection squat_example ["Squat (Barbell)"%string] 2024 →
         (Weight r <= max_weight s)%Q.
Proof.
  exact (proj1 weight_mean_and_max squat_example exercise_mappings 2024 _ _ _ _
           squat_outputs_run exercise_mappings_NoDup squat_in_mappings
           squat_selection_nonempty).
Defined.

(** ** The figure *)

Lemma report_figure_inl e m year : report_figure (inl e) m year = inl e.
Proof. reflexivity. Qed.

Lemma report_figure_structure data m year fig :
  report_figure data m year = inr fig →
  suptitle fig = "Training Analysis Report - " +:+ pretty year ∧
  ∃ all_stats all_dfs,
    analyze_exercises data m 2024 = inr (all_stats, all_dfs) ∧
    create_detailed_stats_table all_stats m.*1 = inr (ax_stats fig) ∧
    ax_days fig = create_training_days_plot all_stats m.*1 ∧
    create_sets_per_session_plot all_stats m.*1 = inr (ax_sets fig) ∧
    ax_volume fig = create_volume_plot all_stats m.*1 ∧
    ax_progress fig = create_weight_progression_plot all_dfs m.*1.
Proof.
  unfold report_figure, analyze_exercises_year_default.
  destruct (analyze_exercises data m 2024) as [e | [st dfs]]; [discriminate |].
  cbn [bind].
  destruct (create_detailed_stats_table st m.*1) as [e | table] eqn:Htable;
    [discriminate |].
  cbn [bind].
  destruct (create_sets_per_session_plot st m.*1) as [e | bars] eqn:Hbars;
    [discriminate |].
  cbn [bind]. intros [= <-]. cbn. split; [done |].
  exists st, dfs. done.
Qed.

(** C10.  The [year] argument of [create_comprehensive_report] reaches the
    title only: the figures built for two years have the same panels (and
    the same exception is raised when none is built), the panels are those
    of the stats and series of [analyze_exercises] for 2024, and data
    holding records of 2023 and of 2024, reported for 2023, give the table
    of the 2024 records (3 sets) under the title of 2023, although
    [analyze_exercises] for 2023 counts the 2 sets of 2023. *)
Theorem year_only_in_title :
  (∀ data m year1 year2,
     report_panels data m year1 = report_panels data m year2) ∧
  (∀ data m year fig,
     report_figure data m year = inr fig →
     suptitle fig = "Training Analysis Report - " +:+ pretty year ∧
     ∃ all_stats all_dfs,
       analyze_exercises data m 2024 = inr (all_stats, all_dfs) ∧
       create_detailed_stats_table all_stats m.*1 = inr (ax_stats fig) ∧
       ax_days fig = create_training_days_plot all_stats m.*1 ∧
       create_sets_per_session_plot all_stats m.*1 = inr (ax_sets fig) ∧
       ax_volume fig = create_volume_plot all_stats m.*1 ∧
       ax_progress fig = create_weight_progression_plot all_dfs m.*1) ∧
  ((∃ all_stats all_dfs s,
      analyze_exercises (inr (full_frame two_years_example)) exercise_mappings 2023 =
        inr (all_stats, all_dfs) ∧
      all_stats !! "Squat (Barbell)"%string = Some s ∧ total_sets s = 2) ∧
   report_figure (inr (full_frame two_years_example)) exercise_mappings 2023 =
     inr (squat_figure 2023) ∧
   suptitle (squat_figure 2023) = "Training Analysis Report - 2023"%string ∧
   tr_total_sets <$> ax_stats (squat_figure 2023) = [3]).
Proof.
  split; [| split].
  - intros data m year1 year2. unfold report_panels, report_figure.
    destruct (analyze_exercises data m analyze_exercises_year_default)
      as [e | [st dfs]]; [done |].
    cbn [bind].
    destruct (create_detailed_stats_table st m.*1) as [e | table]; [done |].
    cbn [bind].
    destruct (create_sets_per_session_plot st m.*1) as [e | bars]; done.
  - exact report_figure_structure.
  - split; [| split; [| split]].
    + destruct (foldl (loop_body_full (filter_year 2023 two_years_example)) (∅, ∅)
                  exercise_mappings) as [st dfs] eqn:Hout.
      exists st, dfs. eexists.
      split; [by rewrite analyze_exercises_inr, Hout |].
      vm_compute in Hout. injection Hout as <- _. vm_compute. done.
    + vm_compute. reflexivity.
    + vm_compute. reflexivity.
    + reflexivity.
Qed.

Lemma year_only_in_title_witness :
  suptitle (squat_figure 1999) = "Training Analysis Report - " +:+ pretty 1999 ∧
  ∃ all_stats all_dfs,
    analyze_exercises (inr (full_frame squat_example)) exercise_mappings 2024 =
      inr (all_stats, all_dfs) ∧
    create_detailed_stats_table all_stats exercise_mappings.*1 =
      inr (ax_stats (squat_figure 1999)) ∧
    ax_days (squat_figure 1999) =
      create_training_days_plot all_stats exercise_mappings.*1 ∧
    create_sets_per_session_plot all_stats exercise_mappings.*1 =
      inr (ax_sets (squat_figure 1999)) ∧
    ax_volume (squat_figure 1999) = create_volume_plot all_stats exercise_mappings.*1 ∧
    ax_progress (squat_figure 1999) =
      create_weight_progression_plot all_dfs exercise_mappings.*1.
Proof.
  refine (proj1 (proj2 year_only_in_title)
            (inr (full_frame squat_example)) exercise_mappings 1999
            (squat_figure 1999) _).
  vm_compute. reflexivity.
Defined.

(** ** The run *)

Section RunFacts.
Context {Image : Type}.
Variable savefig : Figure → option Image → (pyexn + unit) * option Image.

Implicit Types (w : World Image) (e : pyexn).

(** An exception raised before the save leaves the world as it was. *)
Lemma report_early_failure w e m year :
  report_figure (data_strong_csv w) m year = inl e →
  create_comprehensive_report savefig w m year = (inl e, w).
Proof.
  intros H. unfold create_comprehensive_report. by rewrite H.
Qed.

Lemma report_saved w m year fig result png :
  report_figure (data_strong_csv w) m year = inr fig →
  savefig fig (training_report_png w) = (result, png) →
  create_comprehensive_report savefig w m year = (result, set_png png w).
Proof.
  intros Hfig Hsave. unfold create_comprehensive_report. by rewrite Hfig, Hsave.
Qed.

Lemma main_failure w e w' :
  create_comprehensive_report savefig w exercise_mappings 2024 = (inl e, w') →
  main savefig w = print (error_line e) w'.
Proof.
  intros Hrun. unfold main, error_line. rewrite Hrun. by destruct (decide _).
Qed.

Lemma main_success w w' :
  create_comprehensive_report savefig w exercise_mappings 2024 = (inr (), w') →
  main savefig w = print msg_saved w'.
Proof.
  intros Hrun. unfold main. by rewrite Hrun.
Qed.
End RunFacts.

(** C4, as stated, fails: a data file that exists but cannot be opened is
    reported with the text of the I/O error, not with the message that
    names the file as missing. *)
Lemma unreadable_file_raw_message :
  (∃ e, data_strong_csv unreadable_world = inl e ∧ exn_cls e = PermissionError) ∧
  stdout (main savefig_ok unreadable_world) =
    ["An error occurred: [Errno 13] Permission denied: 'data/strong.csv'"%string] ∧
  stdout (main savefig_ok unreadable_world) ≠ [msg_not_found].
Proof.
  split; [| split].
  - eexists. split; reflexivity.
  - reflexivity.
  - discriminate.
Qed.

(** C4, amended.  The line a failed run prints depends on the class of
    the exception only, wherever it was raised: the fixed message naming
    ['data/strong.csv'] as not found for a [FileNotFoundError], and
    ["An error occurred: "] followed by the exception's message for any
    other exception.  When the exception is raised before the save (by
    reading the data, by the aggregation, by the panels) that line is all
    the run does: the image file is untouched.  When the save itself
    raises, the line is printed and the image file is as the save left
    it. *)
Theorem failed_run_report {Image}
    (savefig : Figure → option Image → (pyexn + unit) * option Image)
    (w : World Image) (e : pyexn) :
  (report_figure (data_strong_csv w) exercise_mappings 2024 = inl e →
   main savefig w = print (error_line e) w) ∧
  (∀ fig png,
     report_figure (data_strong_csv w) exercise_mappings 2024 = inr fig →
     savefig fig (training_report_png w) = (inl e, png) →
     main savefig w = print (error_line e) (set_png png w)) ∧
  (exn_cls e = FileNotFoundError → error_line e = msg_not_found) ∧
  (exn_cls e ≠ FileNotFoundError → error_line e = "An error occurred: " +:+ str e).
Proof.
  split; [| split; [| split]].
  - intros Hfig. apply main_failure. by apply report_early_failure.
  - intros fig png Hfig Hsave. apply main_failure. by eapply report_saved.
  - intros Hcls. unfold error_line. by rewrite decide_True.
  - intros Hcls. unfold error_line. by rewrite decide_False.
Qed.

Lemma failed_run_report_witness :
  main savefig_ok missing_world = print msg_not_found missing_world ∧
  main savefig_ok (world_of (inr no_weight_frame)) =
    print "An error occurred: 'Weight'" (world_of (inr no_weight_frame)) ∧
  main savefig_ok (world_of (inr (full_frame last_year_example))) =
    print "An error occurred: list index out of range"
      (world_of (inr (full_frame last_year_example))) ∧
  main savefig_no_target (world_of (inr (full_frame squat_example))) =
    print msg_not_found (world_of (inr (full_frame squat_example))).
Proof.
  split; [| split; [| split]].
  - refine (proj1 (failed_run_report savefig_ok missing_world
                     (PyExn FileNotFoundError
                        "[Errno 2] No such file or directory: 'data/strong.csv'"))
              _).
    reflexivity.
  - refine (proj1 (failed_run_report savefig_ok (world_of (inr no_weight_frame))
                     (PyExn KeyError "'Weight'")) _).
    vm_compute. reflexivity.
  - refine (proj1 (failed_run_report savefig_ok
                     (world_of (inr (full_frame last_year_example)))
                     (PyExn IndexError "list index out of range")) _).
    vm_compute. reflexivity.
  - refine (proj1 (proj2 (failed_run_report savefig_no_target
                            (world_of (inr (full_frame squat_example)))
                            (PyExn FileNotFoundError
                               "[Errno 2] No such file or directory: 'output/training_report.png'")))
              (squat_figure 2024) None _ _).
    + vm_compute. reflexivity.
    + reflexivity.
Defined.

(** * Further properties of the aggregator *)

(** The loop reads the data only through the selections of the
    mappings. *)
Lemma foldl_loop_ext df df' m acc :
  (∀ g alt_names, (g, alt_names) ∈ m → filter_isin alt_names df = filter_isin alt_names df') →
  foldl (loop_body_full df) acc m = foldl (loop_body_full df') acc m.
Proof.
  revert acc. induction m as [|[g alts] m IH]; intros acc Hsel; [done |].
  cbn [foldl].
  assert (loop_body_full df acc (g, alts) = loop_body_full df' acc (g, alts)) as ->.
  { destruct acc as [st dfs]. unfold loop_body_full.
    rewrite (Hsel g alts); [done | apply elem_of_cons; by left]. }
  apply IH. intros g' a' Hin. apply (Hsel g'). apply elem_of_cons. by right.
Qed.

Lemma foldl_loop_nil m acc : foldl (loop_body_full []) acc m = acc.
Proof.
  revert acc. induction m as [|[g alts] m IH]; intros acc; [done |].
  cbn [foldl]. rewrite loop_body_full_empty by done. apply IH.
Qed.

(** X1.  The two outputs have the same keys, every key is a key of the
    mappings, and the stats of a key are those of its stored frame, which
    is not empty. *)
Theorem outputs_coherent df m year all_stats all_dfs :
  analyze_exercises (inr (full_frame df)) m year = inr (all_stats, all_dfs) →
  dom all_stats = dom all_dfs ∧
  (∀ g, g ∈ dom all_stats → g ∈ m.*1) ∧
  (∀ g s, all_stats !! g = Some s →
     ∃ f, all_dfs !! g = Some f ∧ f ≠ [] ∧ s = compute_stats f).
Proof.
  intros Hrun.
  assert (∀ g, is_Some (all_stats !! g) ∨ is_Some (all_dfs !! g) →
            g ∈ m.*1 ∧
            ∃ f, f ≠ [] ∧ all_stats !! g = Some (compute_stats f) ∧
                 all_dfs !! g = Some f) as Hboth.
  { intros g Hg.
    destruct (analyze_exercises_present _ _ _ _ _ g Hrun Hg)
      as (a & Hin & Hne & Hs & Hf).
    split.
    - apply list_elem_of_fmap. by exists (g, a).
    - eexists. split; [| split; [exact Hs | exact Hf]].
      rewrite group_frame_nil, <- selection_filters. done. }
  split; [| split].
  - apply set_eq. intros g. rewrite !elem_of_dom. split; intros Hg.
    + destruct (Hboth g (or_introl Hg)) as (_ & f & _ & _ & ->). by eexists.
    + destruct (Hboth g (or_intror Hg)) as (_ & f & _ & -> & _). by eexists.
  - intros g Hg%elem_of_dom. by destruct (Hboth g (or_introl Hg)).
  - intros g s Hs.
    destruct (Hboth g (or_introl (mk_is_Some _ _ Hs))) as (_ & f & Hne & Hs' & Hf).
    exists f. rewrite Hs' in Hs. injection Hs as <-. done.
Qed.

Lemma outputs_coherent_witness : dom squat_outputs.1 = dom squat_outputs.2.
Proof.
  exact (proj1 (outputs_coherent squat_example exercise_mappings 2024 _ _
                  squat_outputs_run)).
Defined.

(** X2.  A record whose exercise name is in no alias list changes
    nothing: the outputs are those of the data without it. *)
Theorem unmapped_name_ignored df1 r df2 m year :
  (∀ g alt_names, (g, alt_names) ∈ m → Exercise_Name r ∉ alt_names) →
  analyze_exercises (inr (full_frame (df1 ++ r :: df2))) m year =
    analyze_exercises (inr (full_frame (df1 ++ df2))) m year.
Proof.
  intros Hname. rewrite !analyze_exercises_inr. f_equal.
  apply foldl_loop_ext. intros g alts Hin.
  unfold filter_isin, filter_year. rewrite !filter_app. f_equal.
  rewrite (filter_cons _ r df2).
  destruct (decide (dt_year (Date r) = year)) as [Hy | Hy]; [| done].
  rewrite filter_cons_False; [done |]. by apply Hname with g.
Qed.

Lemma unmapped_name_ignored_witness :
  analyze_exercises
    (inr (full_frame (squat_example ++ mk_row 2024 1 9 "Running" (0 # 1) 0 :: [])))
    exercise_mappings 2024 =
  analyze_exercises (inr (full_frame (squat_example ++ []))) exercise_mappings 2024.
Proof.
  apply (unmapped_name_ignored squat_example (mk_row 2024 1 9 "Running" (0 # 1) 0) []
           exercise_mappings 2024).
  intros g alts Hin.
  repeat (apply elem_of_cons in Hin as [[= -> ->] | Hin];
          [apply (bool_decide_unpack _); vm_compute; exact I |]).
  inversion Hin.
Defined.

(** X3.  Whatever the mappings (with distinct keys): a record of the data
    dated in the target year whose name is one of the aliases of a group
    contributes to that group.  A name listed under two groups is counted
    in both. *)
Theorem alias_member_contributes df m year g alt_names r :
  NoDup m.*1 → (g, alt_names) ∈ m →
  r ∈ df → dt_year (Date r) = year → Exercise_Name r ∈ alt_names →
  contributes df m year g r.
Proof.
  intros Hnd Hin Hr Hy Hname.
  destruct (foldl (loop_body_full (filter_year year df)) (∅, ∅) m) as [st dfs] eqn:Hout.
  assert (analyze_exercises (inr (full_frame df)) m year = inr (st, dfs)) as Hrun.
  { by rewrite analyze_exercises_inr, Hout. }
  assert (r ∈ spec_selection df alt_names year) as Hsel.
  { by apply list_elem_of_filter. }
  pose proof (analyze_exercises_lookup _ _ _ _ _ _ _ Hrun Hnd Hin) as H.
  rewrite decide_False in H.
  - destruct H as [Hs Hf]. exists st, dfs. do 2 eexists.
    split; [exact Hrun |]. split; [exact Hs |]. split; [exact Hf |].
    split; [done |].
    apply elem_of_group_frame. exists r. split; [done |]. split; [| done].
    by apply list_elem_of_filter.
  - intros E. rewrite E in Hsel. inversion Hsel.
Qed.

Lemma alias_member_contributes_witness :
  contributes squat_example exercise_mappings 2024 "Squat (Barbell)"
    (mk_row 2024 1 8 "Squat (Barbell)" (110 # 1) 5).
Proof.
  apply (alias_member_contributes squat_example exercise_mappings 2024
           "Squat (Barbell)" ["Squat (Barbell)"%string]).
  - exact exercise_mappings_NoDup.
  - exact squat_in_mappings.
  - apply elem_of_cons. right. apply elem_of_cons. right.
    apply elem_of_cons. left. reflexivity.
  - reflexivity.
  - apply elem_of_cons. left. reflexivity.
Defined.

(** X4.  When no name is an alias of two different groups, a row belongs
    to the series of at most one group. *)
Theorem disjoint_aliases_one_group df m year all_stats all_dfs g1 g2 f1 f2 x :
  analyze_exercises (inr (full_frame df)) m year = inr (all_stats, all_dfs) →
  (∀ g a g' a' n, (g, a) ∈ m → (g', a') ∈ m → n ∈ a → n ∈ a' → g = g') →
  all_dfs !! g1 = Some f1 → all_dfs !! g2 = Some f2 →
  x ∈ f1 → x ∈ f2 → g1 = g2.
Proof.
  intros Hrun Hdisj Hf1 Hf2 Hx1 Hx2.
  destruct (analyze_exercises_present _ _ _ _ _ g1 Hrun) as (a1 & Hin1 & _ & _ & E1).
  { right. by eexists. }
  destruct (analyze_exercises_present _ _ _ _ _ g2 Hrun) as (a2 & Hin2 & _ & _ & E2).
  { right. by eexists. }
  rewrite E1 in Hf1. injection Hf1 as <-.
  rewrite E2 in Hf2. injection Hf2 as <-.
  apply elem_of_group_frame in Hx1 as (r1 & -> & _ & Hn1).
  apply elem_of_group_frame in Hx2 as (r2 & Heq & _ & Hn2).
  injection Heq as <- _.
  exact (Hdisj _ _ _ _ _ Hin1 Hin2 Hn1 Hn2).
Qed.

(** X5.  Data with no record in the target year (the empty frame
    included) give two empty dictionaries. *)
Theorem no_records_in_year df m year :
  (∀ r, r ∈ df → dt_year (Date r) ≠ year) →
  analyze_exercises (inr (full_frame df)) m year = inr (∅, ∅).
Proof.
  intros Hnone. rewrite analyze_exercises_inr.
  assert (filter_year year df = []) as ->; [| by rewrite foldl_loop_nil].
  unfold filter_year. induction df as [|r df IH]; [done |].
  rewrite filter_cons_False.
  - apply IH. intros r' Hr'. apply Hnone. apply elem_of_cons. by right.
  - apply Hnone. apply elem_of_cons. by left.
Qed.

Lemma no_records_in_year_witness :
  analyze_exercises (inr (full_frame last_year_example)) exercise_mappings 2024 = inr (∅, ∅).
Proof.
  apply (no_records_in_year last_year_example exercise_mappings 2024).
  intros r Hr.
  repeat (apply elem_of_cons in Hr as [-> | Hr]; [vm_compute; discriminate |]).
  inversion Hr.
Defined.

Lemma exercise_mappings_disjoint g a g' a' n :
  (g, a) ∈ exercise_mappings → (g', a') ∈ exercise_mappings →
  n ∈ a → n ∈ a' → g = g'.
Proof.
  intros Hin Hin' Hn Hn'.
  repeat (apply elem_of_cons in Hin as [[= -> ->] | Hin]);
    [.. | inversion Hin];
    (repeat (apply elem_of_cons in Hin' as [[= -> ->] | Hin']);
       [.. | inversion Hin']);
    try reflexivity;
    (repeat (apply elem_of_cons in Hn as [-> | Hn]); [.. | inversion Hn]);
    (repeat (apply elem_of_cons in Hn' as [Hn' | Hn']; [discriminate Hn' |]));
    inversion Hn'.
Defined.

Lemma disjoint_aliases_one_group_witness :
  "Squat (Barbell)"%string = "Squat (Barbell)"%string.
Proof.
  refine (disjoint_aliases_one_group squat_example exercise_mappings 2024 _ _
            "Squat (Barbell)" "Squat (Barbell)" _ _
            (with_volume (mk_row 2024 1 8 "Squat (Barbell)" (110 # 1) 5))
            squat_outputs_run exercise_mappings_disjoint _ _ _ _).
  - vm_compute. reflexivity.
  - vm_compute. reflexivity.
  - apply elem_of_cons. right. apply elem_of_cons. right.
    apply elem_of_cons. left. reflexivity.
  - apply elem_of_cons. right. apply elem_of_cons. right.
    apply elem_of_cons. left. reflexivity.
Defined.


(** ** Independence of the row order *)

Lemma remove_dups_length_Permutation `{EqDecision A} (l l' : list A) :
  l ≡ₚ l' → length (remove_dups l) = length (remove_dups l').
Proof.
  intros H. apply Permutation_length, NoDup_Permutation.
  - apply NoDup_remove_dups.
  - apply NoDup_remove_dups.
  - intros x. rewrite !elem_of_remove_dups. by rewrite H.
Qed.

Lemma nunique_Permutation `{EqDecision A} (l l' : list A) :
  l ≡ₚ l' → nunique l = nunique l'.
Proof.
  intros H. unfold nunique, len. by rewrite (remove_dups_length_Permutation _ _ H).
Qed.

Lemma max_Q_Permutation l l' : l ≡ₚ l' → (max_Q l == max_Q l')%Q.
Proof.
  intros H. destruct (decide (l' = [])) as [-> | Hne].
  - apply Permutation_nil_r in H. subst. reflexivity.
  - destruct (max_Q_Permutation_spec _ _ H Hne) as [Hin Hge].
    symmetry in H.
    assert (l ≠ []) as Hl.
    { intros ->. by apply Permutation_nil_r in H. }
    destruct (max_Q_Permutation_spec _ _ H Hl) as [Hin' Hge'].
    apply Qle_antisym.
    + apply Hge'. revert Hin. generalize (max_Q l). intros x Hx.
      by rewrite <- H.
    + apply Hge. revert Hin'. generalize (max_Q l'). intros x Hx.
      by rewrite H.
Qed.

Lemma compute_stats_Permutation f f' :
  f ≡ₚ f' → stats_agree (compute_stats f) (compute_stats f').
Proof.
  intros H. unfold stats_agree. cbn [compute_stats total_sets total_reps
                                     max_weight training_days].
  repeat split.
  - by apply len_Permutation.
  - apply sum_Z_Permutation. by rewrite H.
  - apply max_Q_Permutation. by rewrite H.
  - apply nunique_Permutation. by rewrite H.
Qed.

Lemma group_frame_data_Permutation df df' alt_names :
  df ≡ₚ df' → group_frame df alt_names ≡ₚ group_frame df' alt_names.
Proof.
  intros H. rewrite !group_frame_Permutation. unfold filter_isin. by rewrite H.
Qed.

(** X6.  The order of the rows of the data does not matter for what is
    computed without a floating-point sum: for data that are a permutation
    of one another and mappings with distinct keys, a group is present in
    both runs or in neither, its [total_sets], [total_reps], [max_weight]
    and [training_days] agree and its series have the same rows.  (The
    float sums behind [total_volume] and [avg_weight] are taken in frame
    order and are left out.) *)
Theorem row_order_irrelevant df df' m year all_stats all_dfs all_stats' all_dfs' g :
  df ≡ₚ df' → NoDup m.*1 →
  analyze_exercises (inr (full_frame df)) m year = inr (all_stats, all_dfs) →
  analyze_exercises (inr (full_frame df')) m year = inr (all_stats', all_dfs') →
  option_Forall2 stats_agree (all_stats !! g) (all_stats' !! g) ∧
  option_Forall2 (≡ₚ) (all_dfs !! g) (all_dfs' !! g).
Proof.
  intros Hperm Hnd Hrun Hrun'.
  assert (filter_year year df ≡ₚ filter_year year df') as Hyear.
  { unfold filter_year. by rewrite Hperm. }
  destruct (decide (g ∈ m.*1)) as [Hg | Hg].
  - apply list_elem_of_fmap in Hg as ([g0 a] & -> & Hin). cbn [fst].
    pose proof (analyze_exercises_lookup _ _ _ _ _ _ _ Hrun Hnd Hin) as H.
    pose proof (analyze_exercises_lookup _ _ _ _ _ _ _ Hrun' Hnd Hin) as H'.
    rewrite selection_filters in H, H'.
    pose proof (group_frame_data_Permutation _ _ a Hyear) as Hframe.
    destruct (decide (filter_isin a (filter_year year df) = [])) as [E | E];
      destruct (decide (filter_isin a (filter_year year df') = [])) as [E' | E'].
    + destruct H as [-> ->], H' as [-> ->]. split; constructor.
    + exfalso. apply E'. apply Permutation_nil_r.
      rewrite <- E. unfold filter_isin. by rewrite Hyear.
    + exfalso. apply E. apply Permutation_nil_r.
      rewrite <- E'. unfold filter_isin. by rewrite Hyear.
    + destruct H as [-> ->], H' as [-> ->]. split; constructor; [| done].
      by apply compute_stats_Permutation.
  - assert (∀ st dfs d, analyze_exercises (inr (full_frame d)) m year = inr (st, dfs) →
              st !! g = None ∧ dfs !! g = None) as Habsent.
    { intros st dfs d Hd.
      destruct (st !! g) as [s|] eqn:Hs.
      - destruct (analyze_exercises_present _ _ _ _ _ g Hd) as (a & Hin & _).
        { left. by rewrite Hs. }
        exfalso. apply Hg. apply list_elem_of_fmap. by exists (g, a).
      - destruct (dfs !! g) as [f|] eqn:Hf; [| done].
        destruct (analyze_exercises_present _ _ _ _ _ g Hd) as (a & Hin & _).
        { right. by rewrite Hf. }
        exfalso. apply Hg. apply list_elem_of_fmap. by exists (g, a). }
    destruct (Habsent _ _ _ Hrun) as [-> ->].
    destruct (Habsent _ _ _ Hrun') as [-> ->]. split; constructor.
Qed.

Lemma row_order_irrelevant_witness :
  option_Forall2 stats_agree
    (squat_outputs.1 !! "Squat (Barbell)"%string)
    (squat_reversed_outputs.1 !! "Squat (Barbell)"%string).
Proof.
  refine (proj1 (row_order_irrelevant squat_example (reverse squat_example)
                   exercise_mappings 2024 _ _
                   squat_reversed_outputs.1 squat_reversed_outputs.2
                   "Squat (Barbell)" _
                   exercise_mappings_NoDup squat_outputs_run _)).
  - symmetry. apply reverse_Permutation.
  - vm_compute. reflexivity.
Defined.


(** ** Training days and sets *)

Lemma remove_dups_length_le `{EqDecision A} (l : list A) :
  (length (remove_dups l) ≤ length l)%nat.
Proof.
  induction l as [|x l IH]; simpl; [lia |].
  destruct (decide_rel _ _ _); simpl; lia.
Qed.

Lemma remove_dups_length_eq `{EqDecision A} (l : list A) :
  length (remove_dups l) = length l ↔ NoDup l.
Proof.
  induction l as [|x l IH].
  - split; [constructor | done].
  - pose proof (remove_dups_length_le l) as Hle.
    cbn [remove_dups]. destruct (decide_rel _ _ _) as [Hin | Hnin].
    + split.
      * simpl. lia.
      * intros [Hx _]%NoDup_cons. done.
    + simpl. rewrite NoDup_cons. split.
      * intros [= E]. split; [done | by apply IH].
      * intros [_ Hnd]. f_equal. by apply IH.
Qed.

(** X9.  For a group of the outputs, [training_days] equals [total_sets]
    exactly when no two rows of its series have the same calendar date. *)
Theorem training_days_eq_sets_iff df m year all_stats all_dfs g s f :
  analyze_exercises (inr (full_frame df)) m year = inr (all_stats, all_dfs) →
  all_stats !! g = Some s → all_dfs !! g = Some f →
  training_days s = total_sets s ↔
    NoDup ((λ x : SetRow, dt_date (Date x)) <$> f).
Proof.
  intros Hrun Hs Hf.
  destruct (analyze_exercises_present _ _ _ _ _ g Hrun) as (a & _ & _ & Hs' & Hf').
  { left. by eexists. }
  rewrite Hs' in Hs. injection Hs as <-.
  rewrite Hf' in Hf. injection Hf as <-.
  cbn [compute_stats training_days total_sets]. unfold nunique, len.
  rewrite <- remove_dups_length_eq, length_fmap. lia.
Qed.

Lemma training_days_eq_sets_iff_witness :
  training_days squat_stats = total_sets squat_stats ↔
    NoDup ((λ x : SetRow, dt_date (Date x)) <$>
             group_frame (filter_year 2024 squat_example) ["Squat (Barbell)"%string]).
Proof.
  refine (training_days_eq_sets_iff squat_example exercise_mappings 2024 _ _
            "Squat (Barbell)" _ _ squat_outputs_run squat_outputs_stats _).
  vm_compute. reflexivity.
Defined.


(** * Properties of the report panels *)

Lemma stats_days_le_sets df m year all_stats all_dfs g s :
  analyze_exercises (inr (full_frame df)) m year = inr (all_stats, all_dfs) →
  all_stats !! g = Some s → training_days s ≤ total_sets s.
Proof.
  intros Hrun Hs.
  destruct (analyze_exercises_present _ _ _ _ _ g Hrun) as (a & _ & _ & Hs' & _).
  { left. by eexists. }
  rewrite Hs' in Hs. injection Hs as <-.
  cbn [compute_stats training_days total_sets].
  etrans; [apply nunique_le_len |]. unfold len. by rewrite length_fmap.
Qed.

Lemma stats_sets_eq_frame df m year all_stats all_dfs g s f :
  analyze_exercises (inr (full_frame df)) m year = inr (all_stats, all_dfs) →
  all_stats !! g = Some s → all_dfs !! g = Some f → total_sets s = len f.
Proof.
  intros Hrun Hs Hf.
  destruct (analyze_exercises_present _ _ _ _ _ g Hrun) as (a & _ & _ & Hs' & Hf').
  { left. by eexists. }
  rewrite Hs' in Hs. injection Hs as <-.
  rewrite Hf' in Hf. by injection Hf as <-.
Qed.

Lemma stats_dfs_same_keys df m year all_stats all_dfs g :
  analyze_exercises (inr (full_frame df)) m year = inr (all_stats, all_dfs) →
  is_Some (all_stats !! g) ↔ is_Some (all_dfs !! g).
Proof.
  intros Hrun. split; intros Hg.
  - destruct (analyze_exercises_present _ _ _ _ _ g Hrun (or_introl Hg))
      as (a & _ & _ & _ & ->). by eexists.
  - destruct (analyze_exercises_present _ _ _ _ _ g Hrun (or_intror Hg))
      as (a & _ & _ & -> & _). by eexists.
Qed.

Lemma truediv_ge_1 a b v :
  1 ≤ b → b ≤ a → truediv a b = inr v → (1 <= v)%Q.
Proof.
  intros Hb Hab. rewrite truediv_inr by lia. intros [= <-].
  apply Qle_shift_div_l.
  - replace 0%Q with (inject_Z 0) by done. rewrite <- Zlt_Qlt. lia.
  - rewrite Qmult_1_l. by rewrite <- Zle_Qle.
Qed.

(** The rows of the table, read off the dictionary. *)
Lemma table_rows_rows stats exercises table_data row :
  table_rows stats exercises = inr table_data →
  row ∈ table_data →
  ∃ ex s,
    ex ∈ exercises ∧ stats !! ex = Some s ∧
    tr_name row = short_name ex ∧
    tr_training_days row = training_days s ∧
    tr_total_sets row = total_sets s ∧
    truediv (total_sets s) (training_days s) = inr (tr_sets_per_day row) ∧
    tr_total_reps row = total_reps s ∧
    tr_total_volume row = total_volume s ∧
    tr_avg_weight row = avg_weight s ∧
    tr_max_weight row = max_weight s.
Proof.
  revert table_data. induction exercises as [|ex exercises IH]; intros rows; simpl.
  - intros [= <-] Hrow. inversion Hrow.
  - destruct (stats !! ex) as [s|] eqn:Hs.
    + destruct (truediv (total_sets s) (training_days s)) as [e | v] eqn:Hdiv;
        [discriminate |].
      cbn [bind].
      destruct (table_rows stats exercises) as [e | rows'];
        [discriminate |].
      cbn [bind]. intros [= <-] [-> | Hrow]%elem_of_cons.
      * exists ex, s. cbn. rewrite elem_of_cons. tauto.
      * destruct (IH rows' eq_refl Hrow) as (ex' & s' & Hin & H).
        exists ex', s'. rewrite elem_of_cons. tauto.
    + intros Hrows Hrow.
      destruct (IH rows Hrows Hrow) as (ex' & s' & Hin & H).
      exists ex', s'. rewrite elem_of_cons. tauto.
Qed.

Lemma create_detailed_stats_table_rows stats exercises table_data row :
  create_detailed_stats_table stats exercises = inr table_data →
  row ∈ table_data →
  ∃ ex s,
    ex ∈ exercises ∧ stats !! ex = Some s ∧
    tr_name row = short_name ex ∧
    tr_training_days row = training_days s ∧
    tr_total_sets row = total_sets s ∧
    truediv (total_sets s) (training_days s) = inr (tr_sets_per_day row) ∧
    tr_total_reps row = total_reps s ∧
    tr_total_volume row = total_volume s ∧
    tr_avg_weight row = avg_weight s ∧
    tr_max_weight row = max_weight s.
Proof.
  intros [Hrows _]%create_detailed_stats_table_inr_inv. by apply table_rows_rows.
Qed.

Lemma sets_per_session_values_elem l vs v :
  sets_per_session_values l = inr vs → v ∈ vs →
  ∃ s, s ∈ l ∧ truediv (total_sets s) (training_days s) = inr v.
Proof.
  revert vs. induction l as [|s l IH]; intros vs; simpl.
  - intros [= <-] Hv. inversion Hv.
  - destruct (truediv (total_sets s) (training_days s)) as [e | v0] eqn:Hdiv;
      [discriminate |].
    cbn [bind].
    destruct (sets_per_session_values l) as [e | vs']; [discriminate |].
    cbn [bind]. intros [= <-] [-> | Hv]%elem_of_cons.
    + exists s. rewrite elem_of_cons. tauto.
    + destruct (IH vs' eq_refl Hv) as (s' & Hin & H).
      exists s'. rewrite elem_of_cons. tauto.
Qed.

(** X10.  In the table and in the bar plot built from the outputs of the
    aggregator, every sets-per-session value is at least one, and every
    table row has [1 <= training days <= total sets]. *)
Theorem sets_per_session_at_least_one df m year all_stats all_dfs exercises :
  analyze_exercises (inr (full_frame df)) m year = inr (all_stats, all_dfs) →
  (∀ table_data row,
     create_detailed_stats_table all_stats exercises = inr table_data →
     row ∈ table_data →
     (1 <= tr_sets_per_day row)%Q ∧
     1 ≤ tr_training_days row ∧ tr_training_days row ≤ tr_total_sets row) ∧
  (∀ labels values v,
     create_sets_per_session_plot all_stats exercises = inr (labels, values) →
     v ∈ values → (1 <= v)%Q).
Proof.
  intros Hrun. split.
  - intros rows row Hrows Hrow.
    destruct (create_detailed_stats_table_rows _ _ _ _ Hrows Hrow)
      as (ex & s & _ & Hs & _ & -> & -> & Hdiv & _).
    pose proof (stats_training_days_pos _ _ _ _ _ _ _ Hrun Hs) as Hpos.
    pose proof (stats_days_le_sets _ _ _ _ _ _ _ Hrun Hs) as Hle.
    split; [| done]. by eapply truediv_ge_1.
  - intros labels values v. unfold create_sets_per_session_plot.
    destruct (sets_per_session_values (present_stats all_stats exercises))
      as [e | vs] eqn:Hvs; [discriminate |].
    cbn [bind]. intros [= _ <-] Hv.
    destruct (sets_per_session_values_elem _ _ _ Hvs Hv) as (s & Hs & Hdiv).
    unfold present_stats in Hs. apply list_elem_of_omap in Hs as (g & _ & Hg).
    pose proof (stats_training_days_pos _ _ _ _ _ _ _ Hrun Hg) as Hpos.
    pose proof (stats_days_le_sets _ _ _ _ _ _ _ Hrun Hg) as Hle.
    by eapply truediv_ge_1.
Qed.

Lemma sets_per_session_at_least_one_witness :
  (1 <= tr_sets_per_day squat_table_row)%Q ∧
  1 ≤ tr_training_days squat_table_row ∧
  tr_training_days squat_table_row ≤ tr_total_sets squat_table_row.
Proof.
  refine (proj1 (sets_per_session_at_least_one squat_example exercise_mappings 2024
                   _ _ exercise_mappings.*1 squat_outputs_run)
            [squat_table_row] squat_table_row _ _).
  - vm_compute. reflexivity.
  - apply elem_of_cons. left. reflexivity.
Defined.

Lemma present_cons_Some {V} (d : gmap string V) ex exercises v :
  d !! ex = Some v →
  present_labels d (ex :: exercises) = short_name ex :: present_labels d exercises.
Proof.
  intros H. unfold present_labels. rewrite filter_cons_True; [done | by eexists].
Qed.

Lemma present_cons_None {V} (d : gmap string V) ex exercises :
  d !! ex = None →
  present_labels d (ex :: exercises) = present_labels d exercises.
Proof.
  intros H. unfold present_labels. rewrite filter_cons_False; [done |].
  rewrite H. by intros [? ?].
Qed.

(** In the model's values, the columns of the table's loop are the
    values of the bar plots. *)
Lemma table_rows_match_bar_plots stats exercises table_data :
  table_rows stats exercises = inr table_data →
  create_training_days_plot stats exercises =
    (tr_name <$> table_data, tr_training_days <$> table_data) ∧
  create_volume_plot stats exercises =
    (tr_name <$> table_data, tr_total_volume <$> table_data) ∧
  create_sets_per_session_plot stats exercises =
    inr (tr_name <$> table_data, tr_sets_per_day <$> table_data).
Proof.
  unfold create_training_days_plot, create_volume_plot, create_sets_per_session_plot.
  revert table_data. induction exercises as [|ex exercises IH]; intros rows.
  - intros [= <-]. done.
  - cbn [table_rows].
    destruct (stats !! ex) as [s|] eqn:Hs.
    + destruct (truediv (total_sets s) (training_days s)) as [e | v] eqn:Hdiv;
        [discriminate |].
      cbn [bind].
      destruct (table_rows stats exercises) as [e | rows'];
        [discriminate |].
      cbn [bind]. intros [= <-].
      destruct (IH rows' eq_refl) as (Hdays & Hvol & Hsets).
      injection Hdays as Hl Hd. injection Hvol as _ Hv.
      rewrite (present_cons_Some _ _ _ _ Hs).
      unfold present_stats in *. cbn [omap list_omap]. rewrite Hs.
      cbn [fmap list_fmap tr_name tr_training_days tr_total_volume tr_sets_per_day
           sets_per_session_values].
      rewrite Hdiv. cbn [bind].
      destruct (sets_per_session_values (omap (λ ex, stats !! ex) exercises))
        as [e | vs]; [discriminate |].
      cbn [bind] in *. injection Hsets as _ Hvs.
      rewrite Hl, Hd, Hv, Hvs. done.
    + intros Hrows. destruct (IH rows Hrows) as (Hdays & Hvol & Hsets).
      rewrite (present_cons_None _ _ _ Hs).
      unfold present_stats in *. cbn [omap list_omap]. rewrite Hs. done.
Qed.


(** X11.  When the table is built, the three bar plots are built too and
    show the same groups in the same order: their labels are the table's
    name column, the values of the training-days plot are the table's
    training-days cells, and the volume and sets-per-session plots have
    one value per table row.  (The other cells of the table are rounded
    texts and are not compared with the plotted values.) *)
Theorem table_matches_bar_plots stats exercises table_data :
  create_detailed_stats_table stats exercises = inr table_data →
  create_training_days_plot stats exercises =
    (tr_name <$> table_data, tr_training_days <$> table_data) ∧
  (∃ volumes,
     create_volume_plot stats exercises = (tr_name <$> table_data, volumes) ∧
     length volumes = length table_data) ∧
  (∃ values,
     create_sets_per_session_plot stats exercises =
       inr (tr_name <$> table_data, values) ∧
     length values = length table_data).
Proof.
  intros [Hrows _]%create_detailed_stats_table_inr_inv.
  destruct (table_rows_match_bar_plots _ _ _ Hrows) as (Hdays & Hvol & Hsets).
  split; [exact Hdays |]. split.
  - eexists. split; [exact Hvol |]. by rewrite length_fmap.
  - eexists. split; [exact Hsets |]. by rewrite length_fmap.
Qed.

Lemma table_matches_bar_plots_witness :
  create_training_days_plot squat_outputs.1 exercise_mappings.*1 =
    (tr_name <$> [squat_table_row], tr_training_days <$> [squat_table_row]).
Proof.
  refine (proj1 (table_matches_bar_plots squat_outputs.1 exercise_mappings.*1
                   [squat_table_row] _)).
  vm_compute. reflexivity.
Defined.

Lemma progression_vs_stats (stats : gmap string ExerciseStats)
    (dfs : gmap string (list SetRow)) exercises :
  (∀ g, is_Some (stats !! g) ↔ is_Some (dfs !! g)) →
  (∀ g s f, stats !! g = Some s → dfs !! g = Some f → total_sets s = len f) →
  (λ p, p.1) <$> create_weight_progression_plot dfs exercises =
    present_labels stats exercises ∧
  (λ p, len p.2) <$> create_weight_progression_plot dfs exercises =
    total_sets <$> present_stats stats exercises.
Proof.
  intros Hkeys Hlen. unfold create_weight_progression_plot, present_stats.
  induction exercises as [|ex exercises [IH1 IH2]]; [done |].
  cbn [omap list_omap].
  destruct (stats !! ex) as [s|] eqn:Hs; destruct (dfs !! ex) as [f|] eqn:Hf.
  - rewrite (present_cons_Some _ _ _ _ Hs). cbn [fmap list_fmap fst snd].
    split; f_equal; try done.
    rewrite (Hlen _ _ _ Hs Hf). unfold len. by rewrite length_fmap.
  - exfalso. assert (is_Some (dfs !! ex)) as [? ?] by (apply Hkeys; by eexists).
    congruence.
  - exfalso. assert (is_Some (stats !! ex)) as [? ?] by (apply Hkeys; by eexists).
    congruence.
  - by rewrite (present_cons_None _ _ _ Hs).
Qed.

(** X12.  In a figure that is built, the progression panel lists the groups
    of the table in the same order, each with as many points as the
    table's total sets, in ascending order of the date. *)
Theorem progression_matches_table data m year fig :
  report_figure data m year = inr fig →
  (λ p, p.1) <$> ax_progress fig = tr_name <$> ax_stats fig ∧
  (λ p, len p.2) <$> ax_progress fig = tr_total_sets <$> ax_stats fig ∧
  ∀ label points, (label, points) ∈ ax_progress fig →
    StronglySorted ts_le (fst <$> points).
Proof.
  intros Hfig.
  destruct (report_figure_structure _ _ _ _ Hfig)
    as (_ & st & dfs & Hrun & Htable & Hdays & _ & _ & Hprog).
  destruct data as [e | fr]; [discriminate |].
  apply analyze_exercises_success in Hrun.
  apply create_detailed_stats_table_inr_inv in Htable as [Htable _].
  destruct (progression_vs_stats st dfs m.*1) as [Hlabels Hcounts].
  { intros g. by eapply stats_dfs_same_keys. }
  { intros g s f. by eapply stats_sets_eq_frame. }
  rewrite Hprog, Hlabels, Hcounts. split; [| split].
  - symmetry. clear -Htable. revert Htable. generalize (ax_stats fig) as rows.
    induction (m.*1) as [|ex l IH]; intros rows.
    + by intros [= <-].
    + cbn [table_rows].
      destruct (st !! ex) as [s|] eqn:Hs.
      * destruct (truediv (total_sets s) (training_days s)); [discriminate |].
        cbn [bind].
        destruct (table_rows st l) as [e | rows'];
          [discriminate |].
        cbn [bind]. intros [= <-].
        rewrite (present_cons_Some _ _ _ _ Hs). cbn. f_equal. by apply IH.
      * rewrite (present_cons_None _ _ _ Hs). apply IH.
  - symmetry. clear -Htable. revert Htable. generalize (ax_stats fig) as rows.
    unfold present_stats. induction (m.*1) as [|ex l IH]; intros rows.
    + by intros [= <-].
    + cbn [table_rows omap list_omap].
      destruct (st !! ex) as [s|] eqn:Hs.
      * destruct (truediv (total_sets s) (training_days s)); [discriminate |].
        cbn [bind].
        destruct (table_rows st l) as [e | rows'];
          [discriminate |].
        cbn [bind]. intros [= <-]. cbn. f_equal. by apply IH.
      * apply IH.
  - intros label points Hp. unfold create_weight_progression_plot in Hp.
    apply list_elem_of_omap in Hp as (g & _ & Hg).
    destruct (dfs !! g) as [f|] eqn:Hf; [| discriminate].
    injection Hg as _ <-.
    destruct (analyze_exercises_present _ _ _ _ _ g Hrun) as (a & _ & _ & _ & Hf').
    { right. by eexists. }
    rewrite Hf' in Hf. injection Hf as <-.
    rewrite <- list_fmap_compose.
    apply StronglySorted_fmap with (R1 := row_date_le);
      [| apply group_frame_sorted].
    intros x y Hxy. exact Hxy.
Qed.

Lemma progression_matches_table_witness :
  (λ p, len p.2) <$> create_weight_progression_plot squat_outputs.2 exercise_mappings.*1 =
    tr_total_sets <$> [squat_table_row].
Proof.
  refine (proj1 (proj2 (progression_matches_table (inr (full_frame squat_example))
                          exercise_mappings 2024
                          {| suptitle := "Training Analysis Report - 2024";
                             ax_stats := [squat_table_row];
                             ax_days := (["Squat"%string], [2]);
                             ax_sets := (["Squat"%string], [3 # 2]);
                             ax_volume := (["Squat"%string], [1365 # 1]);
                             ax_progress :=
                               create_weight_progression_plot squat_outputs.2
                                 exercise_mappings.*1 |} _))).
  vm_compute. reflexivity.
Defined.

(** ** When the figure is built *)

Lemma foldl_loop_keeps df m acc g :
  is_Some (acc.1 !! g) → is_Some ((foldl (loop_body_full df) acc m).1 !! g).
Proof.
  intros Hg. destruct (foldl_loop_inv df m acc g) as [[-> _] | (a & _ & _ & -> & _)];
    [done | by eexists].
Qed.

(** A mapping with a non-empty selection makes its key a key of the
    stats, whatever the other mappings. *)
Lemma foldl_loop_present df m acc g alt_names :
  (g, alt_names) ∈ m → filter_isin alt_names df ≠ [] →
  is_Some ((foldl (loop_body_full df) acc m).1 !! g).
Proof.
  revert acc. induction m as [|[g' alts] m IH]; intros acc Hin Hne; [inversion Hin |].
  cbn [foldl]. apply elem_of_cons in Hin as [[= <- <-] | Hin]; [| by apply IH].
  apply foldl_loop_keeps. rewrite loop_body_full_insert by done. cbn [fst].
  rewrite lookup_insert_eq. by eexists.
Qed.

Lemma table_rows_nil stats exercises :
  (∀ ex, ex ∈ exercises → stats !! ex = None) → table_rows stats exercises = inr [].
Proof.
  induction exercises as [|ex l IH]; intros Hnone; [done |].
  cbn [table_rows]. rewrite (Hnone ex) by (apply elem_of_cons; by left).
  apply IH. intros ex' Hex'. apply Hnone. apply elem_of_cons. by right.
Qed.

Lemma table_rows_cons stats exercises table_data ex :
  table_rows stats exercises = inr table_data →
  ex ∈ exercises → is_Some (stats !! ex) → table_data ≠ [].
Proof.
  revert table_data. induction exercises as [|ex' l IH]; intros rows Hrows Hin Hex;
    [inversion Hin |].
  cbn [table_rows] in Hrows.
  destruct (stats !! ex') as [s|] eqn:Hs.
  - destruct (truediv (total_sets s) (training_days s)); [discriminate |].
    cbn [bind] in Hrows.
    destruct (table_rows stats l); [discriminate |].
    cbn [bind] in Hrows. by injection Hrows as <-.
  - apply elem_of_cons in Hin as [-> | Hin].
    + rewrite Hs in Hex. by destruct Hex.
    + by eapply IH.
Qed.

(** With the four columns and a mapping that selects a record of 2024, the
    figure is built. *)
Lemma report_figure_full_built df m year g alt_names :
  (g, alt_names) ∈ m → spec_selection df alt_names 2024 ≠ [] →
  ∃ fig, report_figure (inr (full_frame df)) m year = inr fig.
Proof.
  intros Hin Hsel. unfold report_figure, analyze_exercises_year_default.
  destruct (foldl (loop_body_full (filter_year 2024 df)) (∅, ∅) m) as [st dfs] eqn:Hout.
  assert (analyze_exercises (inr (full_frame df)) m 2024 = inr (st, dfs)) as Hrun
    by (by rewrite analyze_exercises_inr, Hout).
  rewrite Hrun. cbn [bind].
  pose proof (λ g s, stats_training_days_pos _ _ _ _ _ g s Hrun) as Hpos.
  destruct (table_rows_inr st m.*1 Hpos) as [rows Hrows].
  assert (rows ≠ []) as Hne.
  { apply (table_rows_cons _ _ _ g Hrows).
    - apply list_elem_of_fmap. by exists (g, alt_names).
    - rewrite selection_filters in Hsel.
      pose proof (foldl_loop_present (filter_year 2024 df) m (∅, ∅) g alt_names Hin Hsel)
        as Hg.
      by rewrite Hout in Hg. }
  pose proof (create_detailed_stats_table_cases st m.*1) as Htable.
  rewrite Hrows in Htable. destruct rows as [|row rows]; [done |].
  rewrite Htable. cbn [bind].
  destruct (create_sets_per_session_plot_inr st m.*1 Hpos) as [bars ->].
  cbn [bind]. by eexists.
Qed.

(** With the four columns and no mapping selecting a record of 2024, the
    table is empty and line 80 raises. *)
Lemma report_figure_full_empty df m year :
  (∀ g alt_names, (g, alt_names) ∈ m → spec_selection df alt_names 2024 = []) →
  report_figure (inr (full_frame df)) m year =
    raise IndexError "list index out of range".
Proof.
  intros Hnone. unfold report_figure, analyze_exercises_year_default.
  destruct (foldl (loop_body_full (filter_year 2024 df)) (∅, ∅) m) as [st dfs] eqn:Hout.
  assert (analyze_exercises (inr (full_frame df)) m 2024 = inr (st, dfs)) as Hrun
    by (by rewrite analyze_exercises_inr, Hout).
  rewrite Hrun. cbn [bind].
  assert (table_rows st m.*1 = inr []) as Hrows.
  { apply table_rows_nil. intros ex _.
    destruct (st !! ex) as [s|] eqn:Hs; [| done]. exfalso.
    destruct (analyze_exercises_present _ _ _ _ _ ex Hrun) as (a & Hin & Hne & _).
    { left. by rewrite Hs. }
    by apply Hne, (Hnone ex). }
  pose proof (create_detailed_stats_table_cases st m.*1) as Htable.
  rewrite Hrows in Htable. by rewrite Htable.
Qed.

(** X13.  On data with the four columns, the figure is built exactly when
    some mapping selects a record dated 2024, whatever [year] is passed:
    if one does, lines 12-39 return; if none does (no record of 2024, or
    the empty frame), the table is empty and line 80 raises
    [IndexError], before any other panel is built. *)
Theorem report_figure_built_iff df m year :
  ((∃ g alt_names, (g, alt_names) ∈ m ∧ spec_selection df alt_names 2024 ≠ []) →
   ∃ fig, report_figure (inr (full_frame df)) m year = inr fig) ∧
  ((∀ g alt_names, (g, alt_names) ∈ m → spec_selection df alt_names 2024 = []) →
   report_figure (inr (full_frame df)) m year =
     raise IndexError "list index out of range").
Proof.
  split.
  - intros (g & a & Hin & Hsel). by eapply report_figure_full_built.
  - apply report_figure_full_empty.
Qed.

Lemma last_year_no_selection g alt_names :
  (g, alt_names) ∈ exercise_mappings →
  spec_selection last_year_example alt_names 2024 = [].
Proof.
  intros Hin.
  repeat (apply elem_of_cons in Hin as [[= -> ->] | Hin]; [vm_compute; reflexivity |]).
  inversion Hin.
Defined.

Lemma report_figure_built_iff_witness :
  report_figure (inr (full_frame last_year_example)) exercise_mappings 2023 =
    raise IndexError "list index out of range".
Proof.
  exact (proj2 (report_figure_built_iff last_year_example exercise_mappings 2023)
           last_year_no_selection).
Defined.

(** X14.  The division of the table and of the sets-per-session plot is
    not guarded by these functions themselves: on a dictionary in which a
    listed exercise has [training_days = 0], both raise
    [ZeroDivisionError]. *)
Theorem zero_training_days_raises stats exercises ex s :
  ex ∈ exercises → stats !! ex = Some s → training_days s = 0 →
  create_detailed_stats_table stats exercises =
    raise ZeroDivisionError "division by zero" ∧
  create_sets_per_session_plot stats exercises =
    raise ZeroDivisionError "division by zero".
Proof.
  intros Hin Hs Hzero.
  assert (∀ s', training_days s' = 0 →
            truediv (total_sets s') (training_days s') =
              raise ZeroDivisionError "division by zero") as Hdiv0.
  { intros s' E. unfold truediv. by rewrite decide_True. }
  assert (∀ a b, (∃ v, truediv a b = inr v) ∨
                 truediv a b = raise ZeroDivisionError "division by zero") as Hdiv.
  { intros a b. unfold truediv. destruct (decide (b = 0)); [by right | left; by eexists]. }
  split.
  - unfold create_detailed_stats_table.
    assert (table_rows stats exercises =
              raise ZeroDivisionError "division by zero") as ->; [| done].
    induction exercises as [|ex' l IH]; [inversion Hin |].
    cbn [table_rows].
    apply elem_of_cons in Hin as [<- | Hin].
    + rewrite Hs, (Hdiv0 _ Hzero). done.
    + rewrite (IH Hin). destruct (stats !! ex') as [s'|]; [| done].
      destruct (Hdiv (total_sets s') (training_days s')) as [[v ->] | ->]; done.
  - unfold create_sets_per_session_plot.
    assert (sets_per_session_values (present_stats stats exercises) =
              raise ZeroDivisionError "division by zero") as ->; [| done].
    unfold present_stats. induction exercises as [|ex' l IH]; [inversion Hin |].
    cbn [omap list_omap].
    apply elem_of_cons in Hin as [<- | Hin].
    + rewrite Hs. cbn [sets_per_session_values]. rewrite (Hdiv0 _ Hzero). done.
    + destruct (stats !! ex') as [s'|]; [| by apply IH].
      cbn [sets_per_session_values]. rewrite (IH Hin).
      destruct (Hdiv (total_sets s') (training_days s')) as [[v ->] | ->]; done.
Qed.

Lemma zero_training_days_raises_witness :
  create_detailed_stats_table
    {[ "Squat (Barbell)"%string :=
         {| total_volume := 0 # 1; total_sets := 0; total_reps := 0;
            avg_weight := 0 # 1; max_weight := 0 # 1; training_days := 0 |} ]}
    ["Squat (Barbell)"%string] =
    raise ZeroDivisionError "division by zero".
Proof.
  refine (proj1 (zero_training_days_raises _ _ "Squat (Barbell)" _ _ _ _)).
  - apply elem_of_cons. left. reflexivity.
  - vm_compute. reflexivity.
  - reflexivity.
Defined.


(** * Properties of [replace] and of the labels *)

Lemma prefix_app old s : String.prefix old (old +:+ s) = true.
Proof.
  induction old as [|c old IH]; simpl; [by destruct s |].
  destruct (Ascii.ascii_dec c c); [exact IH | done].
Qed.

Lemma prefix_inv old s : String.prefix old s = true → ∃ b, s = old +:+ b.
Proof.
  revert s. induction old as [|c old IH]; intros s.
  - intros _. by exists s.
  - destruct s as [|c' s]; [done |]. cbn [String.prefix].
    destruct (Ascii.ascii_dec c c') as [<- | _]; [| done].
    intros [b ->]%IH. by exists b.
Qed.

Lemma replace_from_skip old new a s :
  replace_from old new (String.length a) (a +:+ s) = replace_from old new O s.
Proof.
  induction a as [|c a IH]; [done |]. simpl. exact IH.
Qed.

(** [replace] rewrites a match at the head and goes on behind it. *)
Lemma replace_at_match old new s :
  old ≠ EmptyString →
  replace old new (old +:+ s) = new +:+ replace old new s.
Proof.
  intros Hold. destruct old as [|c old]; [done |].
  unfold replace.
  change (String c old +:+ s) with (String c (old +:+ s)).
  cbn [replace_from].
  change (String c (old +:+ s)) with (String c old +:+ s).
  rewrite prefix_app. f_equal.
  cbn [String.length]. rewrite Nat.sub_1_r. cbn [Nat.pred].
  apply replace_from_skip.
Qed.

(** A string in which [old] does not occur is left as it is. *)
Lemma replace_no_occurrence old new s :
  (∀ a b, s ≠ a +:+ old +:+ b) → replace old new s = s.
Proof.
  unfold replace. induction s as [|c s IH]; intros Hocc; [done |].
  cbn [replace_from].
  destruct (String.prefix old (String c s)) eqn:Hp.
  - apply prefix_inv in Hp as [b Hb]. exfalso. by apply (Hocc EmptyString b).
  - f_equal. apply IH. intros a b ->. by apply (Hocc (String c a) b).
Qed.

Lemma append_assoc (a b c : string) : (a +:+ b) +:+ c = a +:+ (b +:+ c).
Proof.
  induction a as [|x a IH]; [done |].
  change (String x ((a +:+ b) +:+ c) = String x (a +:+ (b +:+ c))).
  by f_equal.
Qed.

(** X15.  An exercise name in which [" (Barbell)"] does not occur is its
    own label. *)
Theorem short_name_unchanged ex :
  (∀ a b, ex ≠ a +:+ " (Barbell)" +:+ b) → short_name ex = ex.
Proof.
  apply replace_no_occurrence.
Qed.

Lemma short_name_unchanged_witness : short_name "Squat" = "Squat"%string.
Proof.
  apply (short_name_unchanged "Squat").
  intros a b H.
  repeat (destruct a as [|? a]; [discriminate H |]; injection H as _ H).
  destruct a; discriminate H.
Defined.

(** X16.  For a name [x] without an opening parenthesis, the label of
    [x ++ " (Barbell)"] is [x], which is also the label of [x] itself: the
    two names are shown under one label. *)
Theorem short_name_strips_suffix x :
  (∀ a b, x ≠ a +:+ String "("%char b) →
  short_name (x +:+ " (Barbell)") = x ∧ short_name x = x.
Proof.
  intros Hpar. split.
  - revert Hpar. unfold short_name, replace.
    induction x as [|c x IH]; intros Hpar; [done |].
    assert (c ≠ "("%char) as Hc.
    { intros ->. by apply (Hpar EmptyString x). }
    assert (∀ a b, x ≠ a +:+ String "("%char b) as Hx.
    { intros a b ->. by apply (Hpar (String c a) b). }
    change (String c x +:+ " (Barbell)") with (String c (x +:+ " (Barbell)")).
    cbn [replace_from].
    assert (String.prefix " (Barbell)" (String c (x +:+ " (Barbell)")) = false) as ->.
    { cbn [String.prefix].
      destruct (Ascii.ascii_dec " " c) as [<- | _]; [| done].
      destruct x as [|c' x]; [reflexivity |].
      change (String c' x +:+ " (Barbell)") with (String c' (x +:+ " (Barbell)")).
      cbn [String.prefix].
      destruct (Ascii.ascii_dec "(" c') as [<- | _]; [| done].
      exfalso. by apply (Hx EmptyString x). }
    f_equal. by apply IH.
  - unfold short_name. apply replace_no_occurrence. intros a b ->.
    apply (Hpar (a +:+ " ") ("Barbell)" +:+ b)).
    rewrite append_assoc. reflexivity.
Qed.

Lemma short_name_strips_suffix_witness :
  short_name ("Bench Press" +:+ " (Barbell)") = "Bench Press"%string ∧
  short_name "Bench Press" = "Bench Press"%string.
Proof.
  apply (short_name_strips_suffix "Bench Press").
  intros a b H.
  repeat (destruct a as [|? a]; [discriminate H |]; injection H as _ H).
  destruct a; discriminate H.
Defined.

(** * The outcomes of a run *)

(** X17.  A run of the script on data with the four columns.  If no
    mapping of the script selects a record dated 2024, the run prints
    ["An error occurred: list index out of range"] and does nothing else:
    the save is never reached.  Otherwise the figure is built and the
    outcome is that of the save: the success line if it returns, the error
    line of its exception if it raises, and in both cases the image file
    as the save left it. *)
Theorem main_outcomes {Image}
    (savefig : Figure → option Image → (pyexn + unit) * option Image)
    (w : World Image) (df : DataFrame) :
  data_strong_csv w = inr (full_frame df) →
  ((∀ g alt_names, (g, alt_names) ∈ exercise_mappings →
                   spec_selection df alt_names 2024 = []) →
   main savefig w = print "An error occurred: list index out of range" w) ∧
  ((∃ g alt_names, (g, alt_names) ∈ exercise_mappings ∧
                   spec_selection df alt_names 2024 ≠ []) →
   ∃ fig,
     report_figure (data_strong_csv w) exercise_mappings 2024 = inr fig ∧
     ∀ result png,
       savefig fig (training_report_png w) = (result, png) →
       main savefig w =
         print (match result with inr _ => msg_saved | inl e => error_line e end)
           (set_png png w)).
Proof.
  intros Hdata. split.
  - intros Hnone.
    pose proof (report_figure_full_empty df exercise_mappings 2024 Hnone) as Hfig.
    rewrite <- Hdata in Hfig.
    by rewrite (main_failure _ _ _ _ (report_early_failure savefig _ _ _ _ Hfig)).
  - intros (g & a & Hin & Hsel).
    destruct (report_figure_full_built df exercise_mappings 2024 g a Hin Hsel)
      as [fig Hfig].
    rewrite <- Hdata in Hfig. exists fig. split; [exact Hfig |].
    intros result png Hsave.
    pose proof (report_saved savefig _ _ _ _ _ _ Hfig Hsave) as Hrun.
    destruct result as [e | []].
    + by apply main_failure.
    + by apply main_success.
Qed.

Lemma main_outcomes_witness :
  main savefig_ok (world_of (inr (full_frame last_year_example))) =
    print "An error occurred: list index out of range"
      (world_of (inr (full_frame last_year_example))).
Proof.
  exact (proj1 (main_outcomes savefig_ok (world_of (inr (full_frame last_year_example)))
                  last_year_example eq_refl)
           last_year_no_selection).
Defined.

(** * Missing columns *)

Lemma require_column_missing fr name :
  name ∉ frame_columns fr →
  require_column fr name = raise KeyError ("'" +:+ name +:+ "'").
Proof.
  intros H. unfold require_column. by rewrite decide_False.
Qed.

Lemma require_column_present fr name :
  name ∈ frame_columns fr → require_column fr name = inr ().
Proof.
  intros H. unfold require_column. by rewrite decide_True.
Qed.

(** Without ['Weight'], the loop returns when every selection is empty and
    raises at the first one that is not. *)
Lemma for_items_no_weight fr m acc :
  "Exercise Name"%string ∈ frame_columns fr →
  "Weight"%string ∉ frame_columns fr →
  for_items fr m acc =
    if decide (Forall (λ item, filter_isin item.2 (frame_rows fr) = []) m)
    then inr acc
    else raise KeyError "'Weight'".
Proof.
  intros Hname Hweight. revert acc. induction m as [|[g alts] m IH]; intros acc.
  - cbn [for_items]. by rewrite decide_True.
  - cbn [for_items]. destruct acc as [st dfs]. unfold loop_body.
    rewrite (require_column_present _ _ Hname). cbn [bind].
    destruct (decide (len (filter_isin alts (frame_rows fr)) = 0)) as [He | He].
    + cbn [bind]. rewrite IH. apply len_nil_iff in He.
      destruct (decide (Forall _ m)) as [Hm | Hm].
      * rewrite decide_True; [done | by constructor].
      * rewrite decide_False; [done |]. by intros [_ ?]%Forall_cons.
    + rewrite (require_column_missing _ _ Hweight). cbn [bind].
      rewrite decide_False; [done |].
      intros [E _]%Forall_cons. cbn in E. by rewrite E in He.
Qed.

(** X18.  What a missing column does.  Without ['Date'] the aggregation
    raises [KeyError('Date')].  With ['Date'] but without
    ['Exercise Name'] it raises [KeyError('Exercise Name')] as soon as
    there is a mapping.  With both but without ['Weight'] it raises
    [KeyError('Weight')] when some mapping selects a record of the target
    year, and returns two empty dictionaries when none does: the column is
    only touched for a non-empty selection. *)
Theorem missing_column_raises fr m year :
  ("Date"%string ∉ frame_columns fr →
   analyze_exercises (inr fr) m year = raise KeyError "'Date'") ∧
  ("Date"%string ∈ frame_columns fr →
   "Exercise Name"%string ∉ frame_columns fr → m ≠ [] →
   analyze_exercises (inr fr) m year = raise KeyError "'Exercise Name'") ∧
  ("Date"%string ∈ frame_columns fr →
   "Exercise Name"%string ∈ frame_columns fr →
   "Weight"%string ∉ frame_columns fr →
   ((∃ g alt_names, (g, alt_names) ∈ m ∧
                    spec_selection (frame_rows fr) alt_names year ≠ []) →
    analyze_exercises (inr fr) m year = raise KeyError "'Weight'") ∧
   ((∀ g alt_names, (g, alt_names) ∈ m →
                    spec_selection (frame_rows fr) alt_names year = []) →
    analyze_exercises (inr fr) m year = inr (∅, ∅))).
Proof.
  split; [| split].
  - intros Hdate. unfold analyze_exercises. cbn [bind].
    by rewrite (require_column_missing _ _ Hdate).
  - intros Hdate Hname Hm. unfold analyze_exercises. cbn [bind].
    rewrite (require_column_present _ _ Hdate). cbn [bind].
    destruct m as [|[g alts] m]; [done |].
    cbn [for_items]. unfold loop_body.
    rewrite require_column_missing by done. done.
  - intros Hdate Hname Hweight.
    assert (analyze_exercises (inr fr) m year =
              if decide (Forall (λ item, spec_selection (frame_rows fr) item.2 year = []) m)
              then inr (∅, ∅) else raise KeyError "'Weight'") as ->.
    { unfold analyze_exercises. cbn [bind].
      rewrite (require_column_present _ _ Hdate). cbn [bind].
      rewrite for_items_no_weight by done. cbn [frame_rows].
      apply decide_ext. apply Forall_iff. intros [g alts].
      by rewrite selection_filters. }
    split.
    + intros (g & a & Hin & Hsel). rewrite decide_False; [done |].
      intros Hall. rewrite Forall_forall in Hall. by apply Hsel, (Hall (g, a)).
    + intros Hnone. rewrite decide_True; [done |].
      apply Forall_forall. intros [g a] Hin. by apply (Hnone g).
Qed.

Lemma missing_column_raises_witness :
  analyze_exercises (inr no_weight_frame) exercise_mappings 2024 =
    raise KeyError "'Weight'" ∧
  analyze_exercises (inr no_weight_frame) exercise_mappings 2023 = inr (∅, ∅).
Proof.
  assert ("Date"%string ∈ frame_columns no_weight_frame) as Hdate
    by (apply elem_of_cons; left; reflexivity).
  assert ("Exercise Name"%string ∈ frame_columns no_weight_frame) as Hname
    by (apply elem_of_cons; right; apply elem_of_cons; left; reflexivity).
  assert ("Weight"%string ∉ frame_columns no_weight_frame) as Hweight
    by (apply (bool_decide_unpack _); vm_compute; exact I).
  split.
  - refine (proj1 (proj2 (proj2 (missing_column_raises no_weight_frame
                                   exercise_mappings 2024))
                     Hdate Hname Hweight) _).
    exists "Squat (Barbell)"%string, ["Squat (Barbell)"%string].
    split; [exact squat_in_mappings | exact squat_selection_nonempty].
  - refine (proj2 (proj2 (proj2 (missing_column_raises no_weight_frame
                                   exercise_mappings 2023))
                     Hdate Hname Hweight) _).
    intros g a Hin.
    repeat (apply elem_of_cons in Hin as [[= -> ->] | Hin]; [vm_compute; reflexivity |]).
    inversion Hin.
Defined.
